(** * Fraud-detection demo notebook: model loading, feature vector
      reconstruction and prediction

    Shallow embedding of [Models/Model_Validation_and_Interpretation.ipynb]:
    [load_model_with_metadata], [prepare_input_data], [predict_fraud] and
    [main], together with the small part of Python they run on (exceptions,
    [print], dictionaries in insertion order, [str] and [repr]). *)

From Stdlib Require Import Ascii String QArith Qabs.
From stdpp Require Import gmap strings list fin_maps pretty.

#[local] Set Warnings "-register-all,-clear-no-such-hyp".

Local Open Scope string_scope.
Local Open Scope list_scope.
Local Open Scope stdpp_scope.

(** ** Python exceptions and results *)

Module Py.

(** Classes of the exceptions that occur; all of them derive from
    [Exception], so [except Exception] catches every value of [exception].
    Signals outside [Exception] (KeyboardInterrupt, and the SystemExit that
    [sys.exit] raises) are not exceptions of this type: [sys.exit] is an
    outcome of the script, see [outcome]. *)
Inductive exc_class :=
| ValueError
| TypeError
| KeyError
| IndexError
| AttributeError
| OtherException (name : string).

(** An exception instance: its class and the text [str(e)] gives. *)
Record exception := Exc { exc_class_of : exc_class; exc_str : string }.

Inductive result (A : Type) :=
| Ok (a : A)
| Raise (e : exception).
Arguments Ok {A} a.
Arguments Raise {A} e.

(** A computation that prints lines to standard output and then returns or
    raises: the lines written so far, in order, and the result. *)
Definition io (A : Type) : Type := list string * result A.

Definition ret {A} (a : A) : io A := ([], Ok a).
Definition raise {A} (e : exception) : io A := ([], Raise e).
Definition print (line : string) : io unit := ([line], Ok tt).
Definition lift {A} (r : result A) : io A := ([], r).

Definition bind {A B} (c : io A) (k : A → io B) : io B :=
  match c with
  | (out, Ok a) => let '(out', r) := k a in (out ++ out', r)
  | (out, Raise e) => (out, Raise e)
  end.

(** [try: body except Exception as e: handler e] *)
Definition try_except {A} (body : io A) (handler : exception → io A) : io A :=
  match body with
  | (out, Ok a) => (out, Ok a)
  | (out, Raise e) => let '(out', r) := handler e in (out ++ out', r)
  end.

Definition result_of {A} (c : io A) : result A := c.2.

End Py.
Export Py.

Declare Scope io_scope.
Delimit Scope io_scope with io.
Notation "'let*' x ':=' c 'in' k" := (bind c (λ x, k))
  (at level 10, x pattern, c at level 100, k at level 200) : io_scope.
Local Open Scope io_scope.

(** [for x in l: s = body x s], the loop state threaded through. *)
Fixpoint for_each {A S} (l : list A) (body : A → S → io S) (s : S) : io S :=
  match l with
  | [] => ret s
  | x :: l' => let* s' := body x s in for_each l' body s'
  end.

(** [[x for x in l if cond x]] where the condition may raise. *)
Fixpoint comprehension_if {A} (l : list A) (cond : A → result bool) : io (list A) :=
  match l with
  | [] => ret []
  | x :: l' =>
      let* b := lift (cond x) in
      let* rest := comprehension_if l' cond in
      ret (if b : bool then x :: rest else rest)
  end.

(** ** Python values, [str] and [repr] *)

(** Scalar values of an input record. A float is carried by its [repr]
    text, which determines it; the code moves such a value into the table
    or formats it with [str], and does no arithmetic on it. *)
Inductive pyval :=
| VInt (z : Z)
| VFloat (repr : string)
| VStr (s : string).

Global Instance pyval_eq_dec : EqDecision pyval.
Proof. solve_decision. Defined.

(** The text of a value: the decimal digits of an int, the [repr] of a
    float, a str itself. *)
Definition py_text (v : pyval) : string :=
  match v with
  | VInt z => pretty z
  | VFloat r => r
  | VStr s => s
  end.

(** The least int that [str] refuses: 10 to the power 4300 (a 1 and 4300
    zeros), the first int of more than 4300 decimal digits. 4300 is the
    limit [sys.get_int_max_str_digits()] starts with in Python 3.11, the
    version the notebook records; the sign does not count. *)
Definition int_str_limit : Z :=
  10000000000000000000000000000000000000000000000000000000000000000000000000000000000000000000000000000000000000000000000000000000000000000000000000000000000000000000000000000000000000000000000000000000000000000000000000000000000000000000000000000000000000000000000000000000000000000000000000000000000000000000000000000000000000000000000000000000000000000000000000000000000000000000000000000000000000000000000000000000000000000000000000000000000000000000000000000000000000000000000000000000000000000000000000000000000000000000000000000000000000000000000000000000000000000000000000000000000000000000000000000000000000000000000000000000000000000000000000000000000000000000000000000000000000000000000000000000000000000000000000000000000000000000000000000000000000000000000000000000000000000000000000000000000000000000000000000000000000000000000000000000000000000000000000000000000000000000000000000000000000000000000000000000000000000000000000000000000000000000000000000000000000000000000000000000000000000000000000000000000000000000000000000000000000000000000000000000000000000000000000000000000000000000000000000000000000000000000000000000000000000000000000000000000000000000000000000000000000000000000000000000000000000000000000000000000000000000000000000000000000000000000000000000000000000000000000000000000000000000000000000000000000000000000000000000000000000000000000000000000000000000000000000000000000000000000000000000000000000000000000000000000000000000000000000000000000000000000000000000000000000000000000000000000000000000000000000000000000000000000000000000000000000000000000000000000000000000000000000000000000000000000000000000000000000000000000000000000000000000000000000000000000000000000000000000000000000000000000000000000000000000000000000000000000000000000000000000000000000000000000000000000000000000000000000000000000000000000000000000000000000000000000000000000000000000000000000000000000000000000000000000000000000000000000000000000000000000000000000000000000000000000000000000000000000000000000000000000000000000000000000000000000000000000000000000000000000000000000000000000000000000000000000000000000000000000000000000000000000000000000000000000000000000000000000000000000000000000000000000000000000000000000000000000000000000000000000000000000000000000000000000000000000000000000000000000000000000000000000000000000000000000000000000000000000000000000000000000000000000000000000000000000000000000000000000000000000000000000000000000000000000000000000000000000000000000000000000000000000000000000000000000000000000000000000000000000000000000000000000000000000000000000000000000000000000000000000000000000000000000000000000000000000000000000000000000000000000000000000000000000000000000000000000000000000000000000000000000000000000000000000000000000000000000000000000000000000000000000000000000000000000000000000000000000000000000000000000000000000000000000000000000000000000000000000000000000000000000000000000000000000000000000000000000000000000000000000000000000000000000000000000000000000000000000000000000000000000000000000000000000000000000000000000000000000000000000000000000000000000000000000000000000000000000000000000000000000000000000000000000000000000000000000000000000000000000000000000000000000000000000000000000000000000000000000000000000000000000000000000000000000000000000000000000000000000000000000000000000000000000000000000000000000000000000000000000000000000000000000000000000000000000000000000000000000000000000000000000000000000000000000000000000000000000000000000000000000000000000000000000000000000000000000000000000000000000000000000000000000000000000000000000000000000000000000000000000000000000000000000000000000000000000000000000000000000000000000000000000000000000000000000000000000000000000000000000000000000000000000000000000000000000000000000000000000000000000000000000000000000000000000000000000000000000000000000000000000000000000000000000000000000000000000000000000000000000000000000000000000000000000000000000000000000000000000000000000000000000000000000000000000000000000000000000000000000000000000000000000000000000000000000000000000000000000000000000000000000000000000000000000000000000000000000000000000000000000000000000000000000000000000000000000000000000000000000000000000000000000000000000000000000000000000000000000000000000000000.

(** Whether [str(v)] returns. *)
Definition str_ok (v : pyval) : bool :=
  match v with
  | VInt z => (Z.abs z <? int_str_limit)%Z
  | VFloat _ | VStr _ => true
  end.

(** [str(v)], which is what an f-string field [{v}] inserts: the text of
    the value, or a ValueError for an int beyond the limit. *)
Definition py_str (v : pyval) : result string :=
  if str_ok v then Ok (py_text v)
  else Raise (Exc ValueError
    "Exceeds the limit (4300 digits) for integer string conversion; use sys.set_int_max_str_digits() to increase the limit").

Definition squote : ascii := Ascii.ascii_of_nat 39.
Definition dquote : ascii := Ascii.ascii_of_nat 34.
Definition backslash : ascii := Ascii.ascii_of_nat 92.

Definition hex_digit (n : N) : ascii :=
  Ascii.ascii_of_N (if (n <? 10)%N then 48 + n else 87 + n)%N.

(** One byte inside [repr] of a str delimited by [quote]. A str is held
    as its UTF-8 bytes; bytes from 128 up belong to the sequences of
    characters beyond ASCII and pass through here, see [repr_chars]. *)
Definition repr_char (quote c : ascii) : string :=
  let n := Ascii.N_of_ascii c in
  if decide (c = quote) then String backslash (String c EmptyString)
  else if decide (c = backslash) then String backslash (String backslash EmptyString)
  else if decide (n = 9%N) then String backslash "t"
  else if decide (n = 10%N) then String backslash "n"
  else if decide (n = 13%N) then String backslash "r"
  else if decide ((n < 32)%N ∨ n = 127%N) then
    String backslash (String "x" (String (hex_digit (n / 16)) (String (hex_digit (n mod 16)) EmptyString)))
  else String c EmptyString.

(** The two bytes [c1 c2] encode a character from U+0080 to U+00BF that is
    not printable: a C1 control, the no-break space or the soft hyphen. *)
Definition latin1_unprintable (c1 c2 : ascii) : bool :=
  let n := Ascii.N_of_ascii c2 in
  bool_decide (Ascii.N_of_ascii c1 = 194%N)
  && ((128 <=? n)%N && (n <=? 160)%N || (n =? 173)%N).

(** The characters of a str inside its [repr]. Of the characters from
    U+0080 to U+00FF the unprintable ones come out as an escape with their
    code; characters beyond U+00FF are taken to be printable. *)
Fixpoint repr_chars (quote : ascii) (s : string) : string :=
  match s with
  | EmptyString => EmptyString
  | String c1 s' =>
      match s' with
      | String c2 s'' =>
          if latin1_unprintable c1 c2 then
            let n := Ascii.N_of_ascii c2 in
            String backslash
              (String "x" (String (hex_digit (n / 16)) (String (hex_digit (n mod 16))
                 (repr_chars quote s''))))
          else repr_char quote c1 +:+ repr_chars quote s'
      | EmptyString => repr_char quote c1
      end
  end.

Fixpoint has_char (c : ascii) (s : string) : bool :=
  match s with
  | EmptyString => false
  | String c' s' => bool_decide (c = c') || has_char c s'
  end.

(** [repr(s)] of a str: single quotes, unless the text has a single quote
    and no double quote. *)
Definition py_repr_str (s : string) : string :=
  let quote := if has_char squote s && negb (has_char dquote s) then dquote else squote in
  String quote (repr_chars quote s +:+ String quote EmptyString).

Fixpoint join (sep : string) (l : list string) : string :=
  match l with
  | [] => EmptyString
  | [x] => x
  | x :: l' => x +:+ sep +:+ join sep l'
  end.

(** [repr] of a list of str. *)
Definition py_repr_list (l : list string) : string :=
  "[" +:+ join ", " (py_repr_str <$> l) +:+ "]".

(** ** Dictionaries in insertion order *)

Definition pydict (V : Type) : Type := list (string * V).

Definition dict_keys {V} (d : pydict V) : list string := d.*1.

Fixpoint dict_get {V} (d : pydict V) (k : string) : option V :=
  match d with
  | [] => None
  | (k', v) :: d' => if decide (k = k') then Some v else dict_get d' k
  end.

(** [k in d] *)
Definition dict_contains {V} (d : pydict V) (k : string) : bool :=
  bool_decide (k ∈ dict_keys d).

(** [d[k]], a KeyError when the key is absent. *)
Definition dict_item {V} (d : pydict V) (k : string) : result V :=
  match dict_get d k with
  | Some v => Ok v
  | None => Raise (Exc KeyError (py_repr_str k))
  end.

(** [k in l] for a list *)
Definition list_contains (l : list string) (k : string) : bool :=
  bool_decide (k ∈ l).

(** ** The feature vector builder, [prepare_input_data] *)

(** A table: its column labels in order and its rows. *)
Record DataFrame := { columns : list string; rows : list (list pyval) }.

Definition nan : pyval := VFloat "nan".

(** [pd.DataFrame(records, columns=cols)] for a list of dicts: one row per
    record, one cell per label of [cols] in that order, NaN where a record
    lacks the label. *)
Definition DataFrame_of_records (records : list (gmap string pyval))
    (cols : list string) : DataFrame :=
  {| columns := cols;
     rows := (λ r, (λ c, default nan (r !! c)) <$> cols) <$> records |}.

(** The cell of the first row under the first column labelled [c]. *)
Definition slot (df : DataFrame) (c : string) : option pyval :=
  match rows df with
  | [] => None
  | r :: _ => dict_get (zip (columns df) r) c
  end.

(** [{feature: 0 for feature in expected_features}] *)
Definition zero_features (expected_features : list string) : gmap string pyval :=
  foldl (λ d feature, <[feature := VInt 0]> d) ∅ expected_features.

(** [f not in categorical_mapping]; the mapping defaults to None, on which
    the membership test raises. *)
Definition not_in_mapping (categorical_mapping : option (pydict string))
    (f : string) : result bool :=
  match categorical_mapping with
  | None => Raise (Exc TypeError "argument of type 'NoneType' is not iterable")
  | Some cm => Ok (negb (dict_contains cm f))
  end.

Definition numerical_warning (feature : string) : string :=
  "Warning: Numerical feature '" +:+ feature +:+ "' not used in model".

(** The f-string of the category warning; it formats the value again. *)
Definition category_warning (value : pyval) (original_feature : string)
    : result string :=
  match py_str value with
  | Ok text =>
      Ok ("Warning: Category '" +:+ text +:+ "' not found in model for feature '"
          +:+ original_feature +:+ "'")
  | Raise e => Raise e
  end.

(** Body of the loop over the numerical features. *)
Definition numerical_step (input_dict : pydict pyval) (expected_features : list string)
    (feature : string) (feature_values : gmap string pyval) : io (gmap string pyval) :=
  if list_contains expected_features feature then
    let* v := lift (dict_item input_dict feature) in
    ret (<[feature := v]> feature_values)
  else
    let* _ := print (numerical_warning feature) in
    ret feature_values.

(** [f"{encoded_prefix}_{value}"] *)
Definition encoded_column (encoded_prefix : string) (value : pyval) : result string :=
  match py_str value with
  | Ok text => Ok (encoded_prefix +:+ "_" +:+ text)
  | Raise e => Raise e
  end.

(** Body of the loop over [categorical_mapping.items()]. *)
Definition categorical_step (input_dict : pydict pyval) (expected_features : list string)
    (item : string * string) (feature_values : gmap string pyval)
    : io (gmap string pyval) :=
  let '(original_feature, encoded_prefix) := item in
  if dict_contains input_dict original_feature then
    let* value := lift (dict_item input_dict original_feature) in
    let* encoded_column := lift (encoded_column encoded_prefix value) in
    if list_contains expected_features encoded_column then
      ret (<[encoded_column := VInt 1]> feature_values)
    else
      let* line := lift (category_warning value original_feature) in
      let* _ := print line in
      ret feature_values
  else ret feature_values.

(** Truth value of the mapping argument: None and the empty dict are false. *)
Definition mapping_truthy (categorical_mapping : option (pydict string)) : bool :=
  match categorical_mapping with
  | None | Some [] => false
  | Some _ => true
  end.

(** The dict [feature_values] as it stands when the table is built. *)
Definition build_feature_values (input_dict : pydict pyval)
    (expected_features : list string) (categorical_mapping : option (pydict string))
    : io (gmap string pyval) :=
  let feature_values := zero_features expected_features in
  let* numerical_features :=
    comprehension_if (dict_keys input_dict) (not_in_mapping categorical_mapping) in
  let* feature_values :=
    for_each numerical_features (numerical_step input_dict expected_features)
      feature_values in
  if mapping_truthy categorical_mapping then
    for_each (default [] categorical_mapping)
      (categorical_step input_dict expected_features) feature_values
  else ret feature_values.

Definition prepare_input_data (input_dict : pydict pyval)
    (expected_features : list string) (categorical_mapping : option (pydict string))
    : io DataFrame :=
  if bool_decide (expected_features = []) then
    raise (Exc ValueError "No expected features provided")
  else
    let* feature_values :=
      build_feature_values input_dict expected_features categorical_mapping in
    ret (DataFrame_of_records [feature_values] expected_features).

(** *** What the builder computes, stated directly *)

(** The values of the mapped attributes the input has can all be converted
    to text: none of them is an int beyond the limit. *)
Definition convertible (input_dict : pydict pyval) (cm : pydict string) : bool :=
  forallb (λ item : string * string,
             match dict_get input_dict item.1 with
             | Some v => str_ok v
             | None => true
             end) cm.

(** The one-hot column a mapping entry derives from the input, if the
    input has the raw attribute. *)
Definition derived_column (input_dict : pydict pyval) (item : string * string)
    : option string :=
  (λ v, item.2 +:+ "_" +:+ py_text v) <$> dict_get input_dict item.1.

(** Some mapping entry derives column [c]. *)
Definition one_hot_set (input_dict : pydict pyval) (cm : pydict string)
    (c : string) : bool :=
  bool_decide (Exists (λ item, derived_column input_dict item = Some c) cm).

(** The value under an expected column when the loop over the numerical
    features is done. *)
Definition numeric_slot (input_dict : pydict pyval) (cm : pydict string)
    (c : string) : pyval :=
  match dict_get input_dict c with
  | Some v => if dict_contains cm c then VInt 0 else v
  | None => VInt 0
  end.

(** The dict [feature_values] at that point. *)
Definition numeric_values (input_dict : pydict pyval)
    (expected_features : list string) (cm : pydict string) : gmap string pyval :=
  list_to_map ((λ c, (c, numeric_slot input_dict cm c)) <$> expected_features).

(** The value the builder leaves under an expected column. *)
Definition slot_value (input_dict : pydict pyval) (cm : pydict string)
    (c : string) : pyval :=
  if one_hot_set input_dict cm c then VInt 1 else numeric_slot input_dict cm c.

(** The warnings of the numerical loop, in order. *)
Definition numerical_warnings (input_dict : pydict pyval)
    (expected_features : list string) (cm : pydict string) : list string :=
  numerical_warning <$>
    filter (λ f, f ∉ expected_features)
      (filter (λ f, f ∉ dict_keys cm) (dict_keys input_dict)).

(** The warning of one mapping entry, if it gives one. *)
Definition category_warning_of (input_dict : pydict pyval)
    (expected_features : list string) (item : string * string) : list string :=
  match dict_get input_dict item.1 with
  | Some value =>
      if list_contains expected_features (item.2 +:+ "_" +:+ py_text value) then []
      else ["Warning: Category '" +:+ py_text value
            +:+ "' not found in model for feature '" +:+ item.1 +:+ "'"]
  | None => []
  end.

Definition category_warnings (input_dict : pydict pyval)
    (expected_features : list string) (cm : pydict string) : list string :=
  cm ≫= category_warning_of input_dict expected_features.

(** ** Models and artifacts *)

(** A predicted class label: an integer, or None. *)
Inductive label :=
| LNone
| LInt (z : Z).

(** A float of the probability array. Finite floats are rationals; the
    sign of zero is not kept. *)
Inductive pyfloat :=
| Fin (q : Q)
| PInf
| NInf
| NaN.

(** The two-dimensional array [predict_proba] returns: its second
    dimension and its rows, each of [n_classes] entries. *)
Record proba_array := { n_classes : nat; proba_rows : list (list pyfloat) }.

(** An object with [predict] and [predict_proba]: a fitted estimator or
    pipeline. [feature_names_in_] is None when the object has no such
    attribute, and else the entries of that array of str. *)
Record estimator := {
  feature_names_in_ : option (list string);
  is_Pipeline : bool;
  predict : DataFrame → result (list label);
  predict_proba : DataFrame → result proba_array }.

(** What [joblib.load] can give back: an estimator; a dict, seen through
    the four keys the loader reads (None for an absent key; the metadata
    values are lists of str, as the saving side writes them); or an object
    of some other type. *)
Inductive pyobj :=
| Estimator (m : estimator)
| Dict (model_slot : option pyobj)
    (feature_names categorical_features training_columns : option (list string))
| Opaque (type_name : string).

(** ** The model loader, [load_model_with_metadata] *)

Definition load_model_with_metadata (joblib_load : string → result pyobj)
    (model_path : string)
    : io (pyobj * list string * list string * list string) :=
  try_except
    (let* model_data := lift (joblib_load model_path) in
     match model_data with
     | Dict (Some model) feature_names categorical_features training_columns =>
         ret (model, default [] feature_names, default [] categorical_features,
              default [] training_columns)
     | _ => ret (model_data, [], [], [])
     end)
    (λ e, raise (Exc ValueError ("Error loading model: " +:+ exc_str e))).

(** ** The predictor, [predict_fraud] *)

Definition attribute_error (type_name attr : string) : exception :=
  Exc AttributeError
    ("'" +:+ type_name +:+ "' object has no attribute '" +:+ attr +:+ "'").

(** [model.attr] for one of the two methods of an estimator. *)
Definition method_of (model : pyobj) (attr : string) : result estimator :=
  match model with
  | Estimator m => Ok m
  | Dict _ _ _ _ => Raise (attribute_error "dict" attr)
  | Opaque type_name => Raise (attribute_error type_name attr)
  end.

(** [a[0]] on a one-dimensional array *)
Definition index_0 {A} (a : list A) : result A :=
  match a with
  | x :: _ => Ok x
  | [] => Raise (Exc IndexError "index 0 is out of bounds for axis 0 with size 0")
  end.

(** [a[:, 1]] *)
Definition column_1 (a : proba_array) : result (list pyfloat) :=
  if decide (1 < n_classes a) then
    Ok ((λ r, default NaN (r !! 1)) <$> proba_rows a)
  else
    Raise (Exc IndexError
      ("index 1 is out of bounds for axis 1 with size " +:+ pretty (n_classes a))).

Definition predict_fraud (model : pyobj) (input_data : DataFrame)
    : io (label * pyfloat) :=
  try_except
    (let* m := lift (method_of model "predict") in
     let* prediction := lift (predict m input_data) in
     let* m := lift (method_of model "predict_proba") in
     let* proba := lift (predict_proba m input_data) in
     let* probability := lift (column_1 proba) in
     let* prediction_0 := lift (index_0 prediction) in
     let* probability_0 := lift (index_0 probability) in
     ret (prediction_0, probability_0))
    (λ e, raise (Exc ValueError ("Prediction error: " +:+ exc_str e))).

(** ** The orchestration, [main] *)

Definition CATEGORICAL_MAPPING : pydict string :=
  [("Transaction_Type", "Transaction_Type");
   ("Device_Type", "Device_Type");
   ("Location", "Location");
   ("Merchant_Category", "Merchant_Category");
   ("Authentication_Method", "Authentication_Method")].

Definition MODEL_PATH : string := "../assets/fraud_detection_model_with_metadata.pkl".

Definition transaction_data : pydict pyval :=
  [("Transaction_Amount", VInt 1500);
   ("Transaction_Type", VStr "Online");
   ("Account_Balance", VInt 5000);
   ("Device_Type", VStr "Mobile");
   ("Location", VStr "New York");
   ("Merchant_Category", VStr "Electronics");
   ("IP_Address_Flag", VInt 1);
   ("Daily_Transaction_Count", VInt 10);
   ("Avg_Transaction_Amount_7d", VInt 200);
   ("Failed_Transaction_Count_7d", VInt 3);
   ("Transaction_Distance", VInt 1500);
   ("Authentication_Method", VStr "Password");
   ("Risk_Score", VFloat "0.9");
   ("Is_Weekend", VInt 0);
   ("Hour", VInt 3);
   ("DayOfWeek", VInt 4);
   ("Is_Night", VInt 1);
   ("Amount_to_Balance_Ratio", VFloat "0.3");
   ("Amount_Deviation", VInt 1300);
   ("High_Risk_Category", VInt 1);
   ("Previous_Fraudulent_Activity", VInt 0)].

(** The value of [feature_names] in [main]: the list of the metadata, or
    the array taken from the model. *)
Inductive feature_seq :=
| FList (l : list string)
| FArray (a : list string).

Definition seq_items (s : feature_seq) : list string :=
  match s with FList l => l | FArray a => a end.

(** Truth value, as [not feature_names] takes it. A list is true when it is
    not empty. An array of one entry has the truth value of the entry, an
    array of several has none and the test raises; the empty array counts
    as false (NumPy before 2.2; later versions raise there as well). *)
Definition truth (s : feature_seq) : result bool :=
  match s with
  | FList l => Ok (negb (bool_decide (l = [])))
  | FArray [] => Ok false
  | FArray [x] => Ok (negb (bool_decide (x = EmptyString)))
  | FArray _ =>
      Raise (Exc ValueError
        "The truth value of an array with more than one element is ambiguous. Use a.any() or a.all()")
  end.

(** [x > y] on floats *)
Definition float_gt (x : pyfloat) (y : Q) : bool :=
  match x with
  | Fin q => match (y ?= q)%Q with Lt => true | _ => false end
  | PInf => true
  | NInf | NaN => false
  end.

(** Nearest integer, ties to even. *)
Definition round_half_even (q : Q) : Z :=
  let n := Qnum q in
  let d := Z.pos (Qden q) in
  let fl := (n `div` d)%Z in
  let r2 := (2 * (n `mod` d))%Z in
  if decide (r2 < d)%Z then fl
  else if decide (d < r2)%Z then (fl + 1)%Z
  else if Z.even fl then fl else (fl + 1)%Z.

Definition pad4 (n : Z) : string :=
  (if decide (n < 10)%Z then "000"
   else if decide (n < 100)%Z then "00"
   else if decide (n < 1000)%Z then "0" else EmptyString) +:+ pretty n.

(** [f"{x:.4f}"] *)
Definition format_4f (x : pyfloat) : string :=
  match x with
  | Fin q =>
      let r := round_half_even (Qabs q * 10000) in
      (if decide (Qnum q < 0)%Z then "-" else EmptyString)
      +:+ pretty (r `div` 10000)%Z +:+ "." +:+ pad4 (r `mod` 10000)%Z
  | PInf => "inf"
  | NInf => "-inf"
  | NaN => "nan"
  end.

Definition threshold : Q := 1 # 2.

Definition prediction_line (prediction : Z) : string :=
  "Fraud Prediction: " +:+ pretty prediction +:+ " ("
  +:+ (if decide (prediction = 1%Z) then "Fraud" else "Legitimate") +:+ ")".

Definition probability_line (probability : pyfloat) : string :=
  "Fraud Probability: " +:+ format_4f probability.

Definition alert_line (probability : pyfloat) : string :=
  if float_gt probability threshold then "ALERT: This transaction is likely fraudulent!"
  else "This transaction appears legitimate.".

(** The block under the first [if not feature_names] of [main]: with no
    feature names in the metadata, take the array of the model if it has
    the attribute. *)
Definition resolve_feature_names (model : pyobj) (feature_names : list string)
    : io feature_seq :=
  if bool_decide (feature_names = []) then
    let* _ := print "Warning: No feature names found in model metadata" in
    match model with
    | Estimator m =>
        match feature_names_in_ m with
        | Some a => ret (FArray a)
        | None =>
            if is_Pipeline m then
              let* _ := print "Model is a pipeline but no feature names available" in
              ret (FList feature_names)
            else ret (FList feature_names)
        end
    | _ => ret (FList feature_names)
    end
  else ret (FList feature_names).

(** The rest of the [try] block, from the second [if not feature_names].
    The text of the first result line starts with a newline, so it comes
    out as an empty line and the heading. *)
Definition predict_and_report (model : pyobj) (feature_names : feature_seq)
    : io unit :=
  let* known := lift (truth feature_names) in
  if negb known then
    raise (Exc ValueError "Could not determine required features for model")
  else
    let* _ := print ("Expected features: " +:+ py_repr_list (seq_items feature_names)) in
    let* input_df :=
      prepare_input_data transaction_data (seq_items feature_names)
        (Some CATEGORICAL_MAPPING) in
    let* (prediction, probability) := predict_fraud model input_df in
    match prediction with
    | LInt z =>
        let* _ := print EmptyString in
        let* _ := print "Prediction Results:" in
        let* _ := print (prediction_line z) in
        let* _ := print (probability_line probability) in
        print (alert_line probability)
    | LNone => ret tt
    end.

(** The [try] block of [main]. *)
Definition main_try (joblib_load : string → result pyobj) : io unit :=
  let* (model, feature_names, categorical_features, training_columns) :=
    load_model_with_metadata joblib_load MODEL_PATH in
  let* _ := print "Model loaded successfully" in
  let* feature_names := resolve_feature_names model feature_names in
  predict_and_report model feature_names.

(** How the script ends: [main] returns and the interpreter finishes, or
    [sys.exit] is called with a status. *)
Inductive outcome :=
| Returned
| SysExit (status : Z).


Record run := { stdout : list string; stderr : list string; ending : outcome }.

(** [main]: the [try] block, and the handler that reports to standard error
    and exits with status 1. *)
Definition main (joblib_load : string → result pyobj) : run :=
  match main_try joblib_load with
  | (out, Ok _) => {| stdout := out; stderr := []; ending := Returned |}
  | (out, Raise e) =>
      {| stdout := out; stderr := ["Error: " +:+ exc_str e]; ending := SysExit 1 |}
  end.

(** ** The reference run *)

(** The feature list stored in the artifact, as the reference run prints it. *)
Definition reference_features : list string :=
  ["Transaction_Amount"; "Account_Balance"; "IP_Address_Flag";
   "Previous_Fraudulent_Activity"; "Daily_Transaction_Count";
   "Avg_Transaction_Amount_7d"; "Failed_Transaction_Count_7d";
   "Transaction_Distance"; "Risk_Score"; "Is_Weekend"; "Hour"; "DayOfWeek";
   "Is_Night"; "Amount_to_Balance_Ratio"; "Amount_Deviation";
   "High_Risk_Category"; "Transaction_Type_ATM Withdrawal";
   "Transaction_Type_Bank Transfer"; "Transaction_Type_Online";
   "Transaction_Type_POS"; "Device_Type_Laptop"; "Device_Type_Mobile";
   "Device_Type_Tablet"; "Location_London"; "Location_Mumbai";
   "Location_New York"; "Location_Sydney"; "Location_Tokyo";
   "Merchant_Category_Clothing"; "Merchant_Category_Electronics";
   "Merchant_Category_Groceries"; "Merchant_Category_Restaurants";
   "Merchant_Category_Travel"; "Authentication_Method_Biometric";
   "Authentication_Method_OTP"; "Authentication_Method_PIN";
   "Authentication_Method_Password"].

(** An estimator that answers every table with one label and one row of
    two class probabilities. *)
Definition constant_estimator (l : label) (p : pyfloat) : estimator :=
  {| feature_names_in_ := None;
     is_Pipeline := false;
     predict := λ _, Ok [l];
     predict_proba := λ _, Ok {| n_classes := 2; proba_rows := [[Fin 0; p]] |} |}.

(** An estimator whose [predict] and [predict_proba] raise [e]. *)
Definition failing_estimator (e : exception) : estimator :=
  {| feature_names_in_ := None;
     is_Pipeline := true;
     predict := λ _, Raise e;
     predict_proba := λ _, Raise e |}.

(** An artifact as the reference run loads it: a dict with a model and the
    feature list. *)
Definition reference_artifact (model : estimator) : pyobj :=
  Dict (Some (Estimator model)) (Some reference_features) None None.

(** The one-hot property in its unconditional form: the derived column
    holds 1 and every other expected column that starts with the prefix
    and an underscore holds 0. *)
Definition one_hot_exclusive (df : DataFrame) (expected_features : list string)
    (encoded_prefix : string) (value : pyval) : Prop :=
  slot df (encoded_prefix +:+ "_" +:+ py_text value) = Some (VInt 1)
  ∧ ∀ c, c ∈ expected_features →
         c ≠ encoded_prefix +:+ "_" +:+ py_text value →
         String.prefix (encoded_prefix +:+ "_") c = true →
         slot df c = Some (VInt 0).

(** [del d[k]] *)
Definition dict_remove {V} (d : pydict V) (k : string) : pydict V :=
  filter (λ kv, kv.1 ≠ k) (d : list (string * V)).

(** *** The stages of [main] *)

(** The value of [feature_names] after the block under the first
    [if not feature_names]: the list of the metadata when it is not empty,
    else the array of the model if it has one. *)
Definition features_of (model : pyobj) (feature_names : list string) : feature_seq :=
  if bool_decide (feature_names = []) then
    match model with
    | Estimator m =>
        match feature_names_in_ m with
        | Some a => FArray a
        | None => FList []
        end
    | _ => FList []
    end
  else FList feature_names.

(** The lines printed up to the end of that block. *)
Definition preamble (model : pyobj) (feature_names : list string) : list string :=
  "Model loaded successfully" ::
  if bool_decide (feature_names = []) then
    "Warning: No feature names found in model metadata" ::
    match model with
    | Estimator m =>
        match feature_names_in_ m with
        | Some _ => []
        | None =>
            if is_Pipeline m
            then ["Model is a pipeline but no feature names available"] else []
        end
    | _ => []
    end
  else [].

Definition expected_line (names : list string) : string :=
  "Expected features: " +:+ py_repr_list names.

(** The table [main] builds from the example transaction, and the warnings
    printed on the way. *)
Definition built_table (names : list string) : DataFrame :=
  {| columns := names;
     rows := [slot_value transaction_data CATEGORICAL_MAPPING <$> names] |}.

Definition builder_warnings (names : list string) : list string :=
  numerical_warnings transaction_data names CATEGORICAL_MAPPING
  ++ category_warnings transaction_data names CATEGORICAL_MAPPING.

(** The lines of a reported prediction. *)
Definition result_lines (prediction : Z) (probability : pyfloat) : list string :=
  [EmptyString; "Prediction Results:"; prediction_line prediction;
   probability_line probability; alert_line probability].

(** What [main] prints and returns after the predictor has given [r]. *)
Definition report_of (r : result (label * pyfloat)) : io unit :=
  match r with
  | Raise e => ([], Raise e)
  | Ok (LInt z, probability) => (result_lines z probability, Ok tt)
  | Ok (LNone, _) => ([], Ok tt)
  end.

(** What the reference run shows on its two streams, and its exit. *)
Definition reference_run : run :=
  {| stdout := ["Model loaded successfully"; expected_line reference_features];
     stderr := ["Error: Prediction error: columns are missing: {'Device_Type', 'Authentication_Method', 'Merchant_Category', 'Location', 'Transaction_Type'}"];
     ending := SysExit 1 |}.

(** * Properties *)

(** ** The output monad *)

Lemma bind_ret_l {A B} (a : A) (k : A → io B) : bind (ret a) k = k a.
Proof. unfold bind, ret. by destruct (k a). Qed.

Lemma bind_lift_ok {A B} (a : A) (k : A → io B) : bind (lift (Ok a)) k = k a.
Proof. apply bind_ret_l. Qed.

Lemma bind_raise {A B} (e : exception) (k : A → io B) : bind (raise e) k = raise e.
Proof. reflexivity. Qed.

Lemma bind_lift_raise {A B} (e : exception) (k : A → io B) :
  bind (lift (Raise e)) k = raise e.
Proof. reflexivity. Qed.

Lemma bind_ok {A B} out (a : A) (k : A → io B) :
  bind (out, Ok a) k = (out ++ (k a).1, (k a).2).
Proof. unfold bind. by destruct (k a). Qed.

Lemma bind_print {B} line (k : unit → io B) :
  bind (print line) k = (line :: (k tt).1, (k tt).2).
Proof. unfold print. by rewrite bind_ok. Qed.

Lemma bind_assoc {A B C} (c : io A) (f : A → io B) (g : B → io C) :
  bind (bind c f) g = bind c (λ x, bind (f x) g).
Proof.
  destruct c as [out [a|e]]; [|done]. unfold bind.
  destruct (f a) as [out1 [b|e1]]; [|done].
  destruct (g b) as [out2 r]. by rewrite app_assoc.
Qed.

(** ** Dictionaries *)

Lemma dict_get_is_Some {V} (d : pydict V) k :
  is_Some (dict_get d k) ↔ k ∈ dict_keys d.
Proof.
  unfold dict_keys. induction d as [|[k' v] d IH]; simpl.
  - split; [by intros [? ?] | by intros ?%elem_of_nil].
  - rewrite elem_of_cons. case_decide; subst.
    + split; eauto.
    + rewrite IH. naive_solver.
Qed.

Lemma dict_get_None {V} (d : pydict V) k :
  dict_get d k = None ↔ k ∉ dict_keys d.
Proof. rewrite <-dict_get_is_Some, eq_None_not_Some. done. Qed.

Lemma dict_item_get {V} (d : pydict V) k v :
  dict_get d k = Some v → dict_item d k = Ok v.
Proof. unfold dict_item. by intros ->. Qed.

Lemma zero_features_lookup expected c :
  zero_features expected !! c = if decide (c ∈ expected) then Some (VInt 0) else None.
Proof.
  unfold zero_features.
  assert (∀ d : gmap string pyval,
    foldl (λ d feature, <[feature := VInt 0]> d) d expected !! c
    = if decide (c ∈ expected) then Some (VInt 0) else d !! c) as H.
  { induction expected as [|f l IH]; intros d; cbn [foldl].
    - rewrite decide_False; [done | apply not_elem_of_nil].
    - rewrite IH. destruct (decide (c = f)) as [->|Hne].
      + rewrite lookup_insert_eq.
        repeat case_decide; try done; exfalso; set_solver.
      + rewrite lookup_insert_ne by done.
        repeat case_decide; try done; exfalso; set_solver. }
  rewrite H. by case_decide.
Qed.

(** ** The loops of the builder *)

Lemma comprehension_if_mapping cm l :
  comprehension_if l (not_in_mapping (Some cm))
  = ([], Ok (filter (λ f, f ∉ dict_keys cm) l)).
Proof.
  induction l as [|f l IH]; [done|].
  cbn [comprehension_if]. unfold not_in_mapping at 1.
  rewrite bind_lift_ok, IH, bind_ok. unfold dict_contains, ret.
  rewrite filter_cons. case_bool_decide; case_decide; simpl; done.
Qed.

Lemma numerical_loop input_dict expected l fv :
  (∀ f, f ∈ l → f ∈ dict_keys input_dict) →
  ∃ fv', for_each l (numerical_step input_dict expected) fv
         = (numerical_warning <$> filter (λ f, f ∉ expected) l, Ok fv')
    ∧ ∀ c, fv' !! c = if decide (c ∈ l ∧ c ∈ expected)
                      then dict_get input_dict c else fv !! c.
Proof.
  revert fv. induction l as [|f l IH]; intros fv Hin.
  - exists fv. split; [done|]. intros c. case_decide as H; [|done].
    destruct H as [H _]. by apply elem_of_nil in H.
  - assert (f ∈ dict_keys input_dict) as Hf by (apply Hin; left).
    apply dict_get_is_Some in Hf as [v Hv].
    assert (∀ f', f' ∈ l → f' ∈ dict_keys input_dict) as Hin'
      by (intros; apply Hin; by right).
    simpl. unfold numerical_step at 1, list_contains.
    rewrite filter_cons. case_bool_decide as Hexp.
    + rewrite (dict_item_get _ _ _ Hv), bind_lift_ok, bind_ret_l.
      destruct (IH (<[f := v]> fv) Hin') as (fv' & -> & Hl).
      exists fv'. split; [by rewrite decide_False by tauto|].
      intros c. rewrite Hl. destruct (decide (c = f)) as [->|Hne].
      * rewrite lookup_insert_eq, <-Hv.
        repeat case_decide; try done; exfalso; set_solver.
      * rewrite lookup_insert_ne by done.
        repeat case_decide; try done; exfalso; set_solver.
    + rewrite bind_assoc, bind_print, bind_ret_l.
      destruct (IH fv Hin') as (fv' & -> & Hl). simpl.
      exists fv'. split; [by rewrite decide_True by done|].
      intros c. rewrite Hl.
      repeat case_decide; try done; exfalso; set_solver.
Qed.

Lemma result_of_bind_ok {A B} out (a : A) (k : A → io B) :
  result_of (bind (out, Ok a) k) = result_of (k a).
Proof. by rewrite bind_ok. Qed.

Lemma for_each_ext {A S} (l : list A) (f g : A → S → io S) (s : S) :
  (∀ x, x ∈ l → ∀ s', f x s' = g x s') →
  for_each l f s = for_each l g s.
Proof.
  revert s. induction l as [|x l IH]; intros s H; [done|].
  cbn [for_each]. rewrite (H x) by (by left).
  destruct (g x s) as [out [s'|e]]; [|done].
  rewrite !bind_ok, IH; [done|]. intros y Hy. apply H. by right.
Qed.

Lemma truthy_loop {S} cm (body : string * string → S → io S) (s : S) :
  (if mapping_truthy (Some cm) then for_each (default [] (Some cm)) body s else ret s)
  = for_each cm body s.
Proof. by destruct cm. Qed.

Lemma elem_of_numerical_features (input_dict : pydict pyval) (cm : pydict string) c :
  c ∈ filter (λ f, f ∉ dict_keys cm) (dict_keys input_dict)
  ↔ c ∈ dict_keys input_dict ∧ c ∉ dict_keys cm.
Proof. rewrite list_elem_of_filter. tauto. Qed.

Lemma lookup_numeric_values input_dict expected cm c :
  numeric_values input_dict expected cm !! c
  = if decide (c ∈ expected) then Some (numeric_slot input_dict cm c) else None.
Proof.
  unfold numeric_values. induction expected as [|x l IH].
  - rewrite fmap_nil, list_to_map_nil, lookup_empty, decide_False;
      [done | apply not_elem_of_nil].
  - rewrite fmap_cons, list_to_map_cons. destruct (decide (c = x)) as [->|Hne].
    + rewrite lookup_insert_eq, decide_True; [done | by left].
    + rewrite lookup_insert_ne, IH by done.
      repeat case_decide; try done; exfalso; set_solver.
Qed.

(** The builder up to the loop over the mapping: the numerical loop never
    raises, and leaves the warnings and the dict stated directly. *)
Lemma build_feature_values_stage input_dict expected cm :
  build_feature_values input_dict expected (Some cm)
  = bind (numerical_warnings input_dict expected cm,
          Ok (numeric_values input_dict expected cm))
      (for_each cm (categorical_step input_dict expected)).
Proof.
  unfold build_feature_values.
  rewrite comprehension_if_mapping, bind_ok. cbn [fst snd app].
  destruct (numerical_loop input_dict expected
              (filter (λ f, f ∉ dict_keys cm) (dict_keys input_dict))
              (zero_features expected)) as (fv1 & E1 & L1).
  { by intros f [? _]%elem_of_numerical_features. }
  rewrite E1, !bind_ok, truthy_loop. cbn [fst snd].
  assert (fv1 = numeric_values input_dict expected cm) as ->; [|done].
  apply map_eq. intros c.
  rewrite L1, zero_features_lookup, lookup_numeric_values.
  unfold numeric_slot, dict_contains.
  pose proof (elem_of_numerical_features input_dict cm c) as Hnum.
  destruct (dict_get input_dict c) as [v|] eqn:Hv.
  - assert (c ∈ dict_keys input_dict) by (apply dict_get_is_Some; eauto).
    repeat (case_decide || case_bool_decide); try done; exfalso; naive_solver.
  - apply dict_get_None in Hv.
    repeat (case_decide || case_bool_decide); try done; exfalso; naive_solver.
Qed.

(** *** One pass of the loop over the mapping *)

Lemma categorical_step_absent input_dict expected o p fv :
  dict_get input_dict o = None →
  categorical_step input_dict expected (o, p) fv = ret fv.
Proof.
  intros Ho. unfold categorical_step, dict_contains.
  by rewrite bool_decide_eq_false_2 by (by apply dict_get_None).
Qed.

Lemma categorical_step_present input_dict expected o p v fv :
  dict_get input_dict o = Some v →
  str_ok v = true →
  categorical_step input_dict expected (o, p) fv
  = if list_contains expected (p +:+ "_" +:+ py_text v)
    then ret (<[p +:+ "_" +:+ py_text v := VInt 1]> fv)
    else (["Warning: Category '" +:+ py_text v
           +:+ "' not found in model for feature '" +:+ o +:+ "'"], Ok fv).
Proof.
  intros Hv Hok. unfold categorical_step, dict_contains.
  rewrite bool_decide_eq_true_2 by (apply dict_get_is_Some; eauto).
  rewrite (dict_item_get _ _ _ Hv), bind_lift_ok.
  unfold encoded_column, category_warning, py_str. rewrite Hok, bind_lift_ok.
  destruct (list_contains expected (p +:+ "_" +:+ py_text v)); [done|].
  by rewrite bind_lift_ok, bind_print.
Qed.

Lemma categorical_step_raises input_dict expected o p v fv :
  dict_get input_dict o = Some v →
  str_ok v = false →
  ∃ e, categorical_step input_dict expected (o, p) fv = raise e
       ∧ py_str v = Raise e ∧ exc_class_of e = ValueError.
Proof.
  intros Hv Hok. unfold categorical_step, dict_contains.
  rewrite bool_decide_eq_true_2 by (apply dict_get_is_Some; eauto).
  rewrite (dict_item_get _ _ _ Hv), bind_lift_ok.
  unfold encoded_column, py_str. rewrite Hok, bind_lift_raise. eauto.
Qed.

Lemma convertible_cons input_dict o p cm :
  convertible input_dict ((o, p) :: cm) = true
  ↔ match dict_get input_dict o with Some v => str_ok v = true | None => True end
    ∧ convertible input_dict cm = true.
Proof.
  unfold convertible. cbn [forallb fst]. rewrite andb_true_iff.
  destruct (dict_get input_dict o); naive_solver.
Qed.

(** The values of the mapped attributes are convertible exactly when none
    of them is an int that reaches the limit. *)
Lemma convertible_true input_dict cm :
  convertible input_dict cm = true
  ↔ ∀ o p z, (o, p) ∈ cm → dict_get input_dict o = Some (VInt z) →
             (Z.abs z < int_str_limit)%Z.
Proof.
  induction cm as [|[o p] cm IH].
  - split; [|done]. intros _ o p z H. by apply elem_of_nil in H.
  - rewrite convertible_cons, IH. split.
    + intros [Ho Hcm] o' p' z [[= -> ->]|Hin]%elem_of_cons Hget.
      * rewrite Hget in Ho. cbn in Ho. by apply Z.ltb_lt.
      * by apply (Hcm o' p' z).
    + intros H. split.
      * destruct (dict_get input_dict o) as [[z| |]|] eqn:Hget; try done.
        cbn. apply Z.ltb_lt. apply (H o p z); [by left | done].
      * intros o' p' z Hin. apply (H o' p' z). by right.
Qed.

Lemma convertible_false input_dict cm :
  convertible input_dict cm = false
  ↔ ∃ o p z, (o, p) ∈ cm ∧ dict_get input_dict o = Some (VInt z)
             ∧ (int_str_limit ≤ Z.abs z)%Z.
Proof.
  split.
  - induction cm as [|[o p] cm IH]; [done|].
    unfold convertible. cbn [forallb fst]. fold (convertible input_dict cm).
    intros [Hh|Ht]%andb_false_iff.
    + destruct (dict_get input_dict o) as [[z| |]|] eqn:Hget; try done.
      cbn in Hh. apply Z.ltb_ge in Hh. exists o, p, z. split; [by left | done].
    + destruct (IH Ht) as (o' & p' & z & Hin & Hg & Hz).
      exists o', p', z. split; [by right | done].
  - intros (o & p & z & Hin & Hget & Hz). apply not_true_iff_false.
    intros H. pose proof (proj1 (convertible_true _ _) H o p z Hin Hget). lia.
Qed.

Ltac split_slot Hv :=
  repeat case_decide; try done; exfalso;
  rewrite ?Exists_cons in *; cbn [fst snd] in *;
  repeat match goal with
  | H : context [dict_get _ _] |- _ =>
      lazymatch type of H with
      | dict_get _ _ = _ => fail
      | _ => rewrite Hv in H
      end
  end;
  cbn [fmap option_fmap option_map] in *; naive_solver.

(** The loop over the mapping when every conversion succeeds. *)
Lemma categorical_loop input_dict expected cm fv :
  convertible input_dict cm = true →
  ∃ fv', for_each cm (categorical_step input_dict expected) fv
         = (category_warnings input_dict expected cm, Ok fv')
    ∧ ∀ c, fv' !! c =
           if decide (c ∈ expected
                      ∧ Exists (λ item, derived_column input_dict item = Some c) cm)
           then Some (VInt 1) else fv !! c.
Proof.
  unfold category_warnings.
  revert fv. induction cm as [|[o p] cm IH]; intros fv Hconv.
  - exists fv. split; [done|]. intros c. rewrite decide_False; [done|].
    intros [_ H]. by apply Exists_nil in H.
  - apply convertible_cons in Hconv as [Ho Hconv].
    cbn [for_each mbind list_bind].
    unfold category_warning_of at 1, derived_column. cbn [fst snd].
    destruct (dict_get input_dict o) as [v|] eqn:Hv.
    + rewrite (categorical_step_present _ _ _ _ _ _ Hv Ho).
      unfold list_contains. case_bool_decide as Hexp.
      * rewrite bind_ret_l.
        destruct (IH (<[p +:+ "_" +:+ py_text v := VInt 1]> fv) Hconv)
          as (fv' & -> & Hl).
        exists fv'. split; [done|]. intros c. rewrite Hl.
        destruct (decide (c = p +:+ "_" +:+ py_text v)) as [->|Hne].
        -- rewrite lookup_insert_eq. split_slot Hv.
        -- rewrite lookup_insert_ne by done. split_slot Hv.
      * rewrite bind_ok. cbn [fst snd].
        destruct (IH fv Hconv) as (fv' & -> & Hl).
        exists fv'. split; [done|]. intros c. rewrite Hl. split_slot Hv.
    + rewrite (categorical_step_absent _ _ _ _ _ Hv), bind_ret_l.
      destruct (IH fv Hconv) as (fv' & -> & Hl).
      exists fv'. split; [done|]. intros c. rewrite Hl. split_slot Hv.
Qed.

(** The loop over the mapping when some conversion fails: the first one
    that does ends the loop with its ValueError. *)
Lemma categorical_loop_raises input_dict expected cm fv :
  convertible input_dict cm = false →
  ∃ out e, for_each cm (categorical_step input_dict expected) fv = (out, Raise e)
           ∧ exc_class_of e = ValueError.
Proof.
  revert fv. induction cm as [|[o p] cm IH]; intros fv Hconv; [done|].
  cbn [for_each].
  destruct (dict_get input_dict o) as [v|] eqn:Hv.
  - destruct (str_ok v) eqn:Hok.
    + assert (convertible input_dict cm = false) as Hcm.
      { apply not_true_iff_false. intros Hcm.
        apply not_true_iff_false in Hconv. apply Hconv.
        apply convertible_cons. by rewrite Hv. }
      rewrite (categorical_step_present _ _ _ _ _ _ Hv Hok).
      destruct (list_contains expected (p +:+ "_" +:+ py_text v)).
      * rewrite bind_ret_l. apply IH, Hcm.
      * rewrite bind_ok. cbn [fst snd].
        destruct (IH fv Hcm) as (out & e & -> & He). by eexists _, e.
    + destruct (categorical_step_raises _ expected _ p _ fv Hv Hok)
        as (e & -> & _ & He).
      by exists [], e.
  - assert (convertible input_dict cm = false) as Hcm.
    { apply not_true_iff_false. intros Hcm.
      apply not_true_iff_false in Hconv. apply Hconv.
      apply convertible_cons. by rewrite Hv. }
    rewrite (categorical_step_absent _ _ _ _ _ Hv), bind_ret_l. apply IH, Hcm.
Qed.

(** The dict the table is built from, when every conversion succeeds:
    every expected feature is a key, and nothing else is. *)
Lemma build_feature_values_spec input_dict expected cm :
  convertible input_dict cm = true →
  ∃ fv, build_feature_values input_dict expected (Some cm)
        = (numerical_warnings input_dict expected cm
           ++ category_warnings input_dict expected cm, Ok fv)
    ∧ ∀ c, fv !! c = if decide (c ∈ expected)
                     then Some (slot_value input_dict cm c) else None.
Proof.
  intros Hconv. rewrite build_feature_values_stage.
  destruct (categorical_loop input_dict expected cm
              (numeric_values input_dict expected cm) Hconv) as (fv & E & L).
  rewrite bind_ok, E. cbn [fst snd]. exists fv. split; [done|].
  intros c. rewrite L, lookup_numeric_values. unfold slot_value, one_hot_set.
  repeat (case_decide || case_bool_decide); try done; exfalso; naive_solver.
Qed.

(** The builder, in full, when every conversion succeeds: for a non-empty
    feature list and a mapping it prints the warnings of the two loops and
    returns the one-row table of the slot values. *)
Lemma prepare_input_data_spec input_dict expected cm :
  expected ≠ [] →
  convertible input_dict cm = true →
  prepare_input_data input_dict expected (Some cm)
  = (numerical_warnings input_dict expected cm
     ++ category_warnings input_dict expected cm,
     Ok {| columns := expected;
           rows := [slot_value input_dict cm <$> expected] |}).
Proof.
  intros Hne Hconv. unfold prepare_input_data.
  rewrite bool_decide_eq_false_2 by done.
  destruct (build_feature_values_spec input_dict expected cm Hconv) as (fv & -> & L).
  rewrite bind_ok. cbn [fst snd ret]. rewrite app_nil_r.
  unfold DataFrame_of_records. do 3 f_equal. cbn [fmap list_fmap].
  f_equal. apply list_fmap_ext. intros i c Hc.
  rewrite L, decide_True; [done|]. by eapply list_elem_of_lookup_2.
Qed.

(** The builder when some conversion fails. *)
Lemma prepare_input_data_raises input_dict expected cm :
  expected ≠ [] →
  convertible input_dict cm = false →
  ∃ out e, prepare_input_data input_dict expected (Some cm) = (out, Raise e)
           ∧ exc_class_of e = ValueError.
Proof.
  intros Hne Hconv. unfold prepare_input_data.
  rewrite bool_decide_eq_false_2 by done.
  rewrite build_feature_values_stage.
  destruct (categorical_loop_raises input_dict expected cm
              (numeric_values input_dict expected cm) Hconv) as (out & e & E & He).
  rewrite bind_ok, E. cbn [fst snd bind]. by eexists _, e.
Qed.

(** ** Slots of the built table *)

Lemma slot_of_row (f : string → pyval) expected c :
  slot {| columns := expected; rows := [f <$> expected] |} c
  = if decide (c ∈ expected) then Some (f c) else None.
Proof.
  unfold slot. cbn [rows columns].
  induction expected as [|x l IH]; cbn [zip zip_with fmap list_fmap dict_get].
  - rewrite decide_False; [done | apply not_elem_of_nil].
  - destruct (decide (c = x)) as [->|Hne].
    + rewrite decide_True; [done | by left].
    + fold (f <$> l). fold (zip l (f <$> l)). rewrite IH.
      repeat case_decide; try done; exfalso; set_solver.
Qed.

Lemma one_hot_set_true input_dict cm c :
  one_hot_set input_dict cm c = true
  ↔ ∃ item, item ∈ cm ∧ derived_column input_dict item = Some c.
Proof.
  unfold one_hot_set. rewrite bool_decide_eq_true, Exists_exists. done.
Qed.

Lemma one_hot_set_false input_dict cm c :
  one_hot_set input_dict cm c = false
  ↔ ∀ item, item ∈ cm → derived_column input_dict item ≠ Some c.
Proof.
  rewrite <-not_true_iff_false, one_hot_set_true. naive_solver.
Qed.

Lemma derived_column_get input_dict raw prefix v :
  dict_get input_dict raw = Some v →
  derived_column input_dict (raw, prefix) = Some (prefix +:+ "_" +:+ py_text v).
Proof. unfold derived_column. cbn [fst snd]. by intros ->. Qed.

(** A slot nothing assigns holds 0. *)
Lemma slot_value_zero input_dict cm c :
  (∀ item, item ∈ cm → derived_column input_dict item ≠ Some c) →
  c ∉ dict_keys input_dict ∨ c ∈ dict_keys cm →
  slot_value input_dict cm c = VInt 0.
Proof.
  intros Hnone%one_hot_set_false Hnum.
  unfold slot_value, numeric_slot, dict_contains.
  rewrite Hnone. destruct (dict_get input_dict c) as [v|] eqn:Hv; [|done].
  case_bool_decide; [done|]. destruct Hnum as [Hnum|Hnum]; [|done].
  apply dict_get_None in Hnum. congruence.
Qed.

(** ** Claims about the builder *)

Lemma str_ok_of_convertible input_dict cm o p v :
  convertible input_dict cm = true →
  (o, p) ∈ cm →
  dict_get input_dict o = Some v →
  str_ok v = true.
Proof.
  intros Hconv Hin Hv. unfold convertible in Hconv.
  rewrite forallb_forall in Hconv.
  specialize (Hconv (o, p)). cbn [fst] in Hconv. rewrite Hv in Hconv.
  apply Hconv. by apply list_elem_of_In.
Qed.

(** What the builder prints, and what it returns, by way of the loop over
    the mapping. *)
Lemma prepare_input_data_output input_dict expected cm :
  expected ≠ [] →
  (prepare_input_data input_dict expected (Some cm)).1
  = numerical_warnings input_dict expected cm
    ++ (for_each cm (categorical_step input_dict expected)
          (numeric_values input_dict expected cm)).1.
Proof.
  intros Hne. unfold prepare_input_data.
  rewrite bool_decide_eq_false_2 by done.
  rewrite build_feature_values_stage, bind_ok.
  destruct (for_each cm (categorical_step input_dict expected)
              (numeric_values input_dict expected cm)) as [out [fv|e]];
    cbn [fst snd]; [|done].
  rewrite bind_ok. cbn [fst ret]. by rewrite app_nil_r.
Qed.

Lemma prepare_input_data_result input_dict expected cm :
  expected ≠ [] →
  result_of (prepare_input_data input_dict expected (Some cm))
  = match (for_each cm (categorical_step input_dict expected)
             (numeric_values input_dict expected cm)).2 with
    | Ok fv => Ok (DataFrame_of_records [fv] expected)
    | Raise e => Raise e
    end.
Proof.
  intros Hne. unfold prepare_input_data.
  rewrite bool_decide_eq_false_2 by done.
  rewrite build_feature_values_stage, bind_ok.
  destruct (for_each cm (categorical_step input_dict expected)
              (numeric_values input_dict expected cm)) as [out [fv|e]];
    cbn [fst snd]; [|done].
  by rewrite result_of_bind_ok.
Qed.

(** C1, as the code has it. For a non-empty expected feature list and any
    categorical mapping, the builder returns a table of a single row whose
    columns are the expected feature list, in its order, whatever else the
    input record holds, provided no attribute of the mapping holds in the
    record an int of more than 4300 digits. Such an int cannot be formatted
    into a column name: the builder then raises a ValueError and returns no
    table. *)
Theorem prepare_input_data_columns input_dict expected cm :
  expected ≠ [] →
  ((∀ o p z, (o, p) ∈ cm → dict_get input_dict o = Some (VInt z) →
             (Z.abs z < int_str_limit)%Z) →
   ∃ out df,
     prepare_input_data input_dict expected (Some cm) = (out, Ok df)
     ∧ columns df = expected
     ∧ ∃ row, rows df = [row] ∧ length row = length expected)
  ∧ (∀ o p z, (o, p) ∈ cm → dict_get input_dict o = Some (VInt z) →
              (int_str_limit ≤ Z.abs z)%Z →
     ∃ out e,
       prepare_input_data input_dict expected (Some cm) = (out, Raise e)
       ∧ exc_class_of e = ValueError).
Proof.
  intros Hne. split.
  - intros Hconv%convertible_true. rewrite prepare_input_data_spec by done.
    eexists _, _. split; [done|]. cbn [columns rows]. split; [done|].
    eexists. split; [done|]. by rewrite length_fmap.
  - intros o p z Hin Hget Hz. apply prepare_input_data_raises; [done|].
    apply convertible_false. by exists o, p, z.
Qed.

Lemma prepare_input_data_columns_witness :
  reference_features ≠ []
  ∧ (∀ o p z, (o, p) ∈ CATEGORICAL_MAPPING →
              dict_get transaction_data o = Some (VInt z) →
              (Z.abs z < int_str_limit)%Z)
  ∧ ∃ out df,
      prepare_input_data transaction_data reference_features (Some CATEGORICAL_MAPPING)
      = (out, Ok df)
      ∧ columns df = reference_features
      ∧ ∃ row, rows df = [row] ∧ length row = length reference_features.
Proof.
  assert (reference_features ≠ []) as H1 by done.
  assert (∀ o p z, (o, p) ∈ CATEGORICAL_MAPPING →
                   dict_get transaction_data o = Some (VInt z) →
                   (Z.abs z < int_str_limit)%Z) as H2
    by (apply convertible_true; reflexivity).
  repeat (split; [assumption|]).
  exact (proj1 (prepare_input_data_columns transaction_data reference_features
                  CATEGORICAL_MAPPING H1) H2).
Defined.

(** C1 as worded fails: a record whose categorical attribute holds the int
    10 to the power 4300 makes the builder raise while it formats the column
    name, so that no table is returned. *)
Lemma prepare_input_data_columns_counterexample :
  ["Hour"; "Transaction_Type_Online"] ≠ []
  ∧ prepare_input_data
      [("Hour", VInt 3); ("Transaction_Type", VInt int_str_limit)]
      ["Hour"; "Transaction_Type_Online"] (Some CATEGORICAL_MAPPING)
    = ([], Raise (Exc ValueError
         "Exceeds the limit (4300 digits) for integer string conversion; use sys.set_int_max_str_digits() to increase the limit")).
Proof. split; [done|]. vm_compute. reflexivity. Qed.

(** C5. With an empty expected feature list the builder raises, whatever
    the input record and the categorical mapping (None included), before
    anything is printed. *)
Theorem prepare_input_data_no_features input_dict categorical_mapping :
  prepare_input_data input_dict [] categorical_mapping
  = ([], Raise (Exc ValueError "No expected features provided")).
Proof. reflexivity. Qed.

(** C9. With the categorical mapping left at None, a non-empty input record
    and a non-empty expected feature list, the builder raises a TypeError:
    the membership test on None fails at the first attribute, and no
    attribute is treated as numeric. *)
Theorem prepare_input_data_default_mapping input_dict expected :
  input_dict ≠ [] →
  expected ≠ [] →
  prepare_input_data input_dict expected None
  = ([], Raise (Exc TypeError "argument of type 'NoneType' is not iterable")).
Proof.
  intros Hin Hne. unfold prepare_input_data, build_feature_values.
  rewrite bool_decide_eq_false_2 by done.
  destruct input_dict as [|[k v] rest]; [done|]. reflexivity.
Qed.

Lemma prepare_input_data_default_mapping_witness :
  transaction_data ≠ [] ∧ reference_features ≠ []
  ∧ prepare_input_data transaction_data reference_features None
    = ([], Raise (Exc TypeError "argument of type 'NoneType' is not iterable")).
Proof.
  split; [done|]. split; [done|].
  apply (prepare_input_data_default_mapping transaction_data reference_features);
    done.
Defined.

(** C3, as the code has it. Provided no attribute of the mapping holds in
    the record an int of more than 4300 digits: when a mapping entry
    (raw, prefix) meets the value [v] in the input and the derived column,
    the prefix, an underscore and the text of [v], is expected, that column
    holds 1. Any other expected column holds 0 provided nothing assigns it:
    no mapping entry derives it from the input, and it is not the name of an
    input attribute outside the mapping (such an attribute is copied as a
    numeric feature). *)
Theorem one_hot_column_set input_dict expected cm raw prefix v :
  expected ≠ [] →
  (∀ o p z, (o, p) ∈ cm → dict_get input_dict o = Some (VInt z) →
            (Z.abs z < int_str_limit)%Z) →
  (raw, prefix) ∈ cm →
  dict_get input_dict raw = Some v →
  prefix +:+ "_" +:+ py_text v ∈ expected →
  ∃ out df,
    prepare_input_data input_dict expected (Some cm) = (out, Ok df)
    ∧ slot df (prefix +:+ "_" +:+ py_text v) = Some (VInt 1)
    ∧ ∀ c, c ∈ expected →
           (∀ o p w, (o, p) ∈ cm → dict_get input_dict o = Some w →
                     c ≠ p +:+ "_" +:+ py_text w) →
           c ∉ dict_keys input_dict ∨ c ∈ dict_keys cm →
           slot df c = Some (VInt 0).
Proof.
  intros Hne Hconv%convertible_true Hcm Hv Hexp.
  rewrite prepare_input_data_spec by done.
  eexists _, _. split; [done|]. split.
  - rewrite slot_of_row, decide_True by done. f_equal.
    unfold slot_value.
    assert (one_hot_set input_dict cm (prefix +:+ "_" +:+ py_text v) = true)
      as ->; [|done].
    apply one_hot_set_true. exists (raw, prefix).
    split; [done | by apply derived_column_get].
  - intros c Hc Hnone Hnum.
    rewrite slot_of_row, decide_True by done. f_equal.
    apply slot_value_zero; [|done].
    intros [o p] Hin. unfold derived_column. cbn [fst snd].
    destruct (dict_get input_dict o) as [w|] eqn:Hw; [|done].
    cbn. intros [= Heq]. by apply (Hnone o p w).
Qed.

(** The specification's scenario: the example transaction, the mapping of
    the script and the feature list of the artifact. *)
Lemma one_hot_column_set_witness :
  reference_features ≠ []
  ∧ (∀ o p z, (o, p) ∈ CATEGORICAL_MAPPING →
              dict_get transaction_data o = Some (VInt z) →
              (Z.abs z < int_str_limit)%Z)
  ∧ ("Transaction_Type", "Transaction_Type") ∈ CATEGORICAL_MAPPING
  ∧ dict_get transaction_data "Transaction_Type" = Some (VStr "Online")
  ∧ "Transaction_Type_Online" ∈ reference_features
  ∧ ∃ out df,
      prepare_input_data transaction_data reference_features (Some CATEGORICAL_MAPPING)
      = (out, Ok df)
      ∧ slot df "Transaction_Type_Online" = Some (VInt 1)
      ∧ ∀ c, c ∈ reference_features →
             (∀ o p w, (o, p) ∈ CATEGORICAL_MAPPING →
                       dict_get transaction_data o = Some w →
                       c ≠ p +:+ "_" +:+ py_text w) →
             c ∉ dict_keys transaction_data ∨ c ∈ dict_keys CATEGORICAL_MAPPING →
             slot df c = Some (VInt 0).
Proof.
  assert (reference_features ≠ []) as H1 by done.
  assert (∀ o p z, (o, p) ∈ CATEGORICAL_MAPPING →
                   dict_get transaction_data o = Some (VInt z) →
                   (Z.abs z < int_str_limit)%Z) as H0
    by (apply convertible_true; reflexivity).
  assert (("Transaction_Type", "Transaction_Type") ∈ CATEGORICAL_MAPPING) as H2
    by (by left).
  assert (dict_get transaction_data "Transaction_Type" = Some (VStr "Online")) as H3
    by reflexivity.
  assert ("Transaction_Type_Online" ∈ reference_features) as H4
    by (apply (bool_decide_unpack _); vm_compute; exact I).
  repeat (split; [assumption|]).
  exact (one_hot_column_set transaction_data reference_features CATEGORICAL_MAPPING
           "Transaction_Type" "Transaction_Type" (VStr "Online") H1 H0 H2 H3 H4).
Defined.

(** In that scenario the other columns of the prefix hold 0. *)
Example scenario_transaction_type_online :
  ∃ out df,
    prepare_input_data transaction_data reference_features (Some CATEGORICAL_MAPPING)
    = (out, Ok df)
    ∧ one_hot_exclusive df reference_features "Transaction_Type" (VStr "Online").
Proof.
  rewrite prepare_input_data_spec by done.
  eexists _, _. split; [done|]. split; [by vm_compute|].
  intros c Hc Hne Hpre. rewrite slot_of_row, decide_True by done.
  unfold reference_features in Hc.
  repeat (apply elem_of_cons in Hc as [->|Hc]; [try done; by vm_compute|]).
  by apply elem_of_nil in Hc.
Qed.

(** C3 as worded fails: an input record that also carries an attribute
    named like a column of the prefix has that attribute copied into the
    column, which then is not 0. *)
Lemma one_hot_exclusive_counterexample :
  let input_dict :=
    [("Transaction_Type", VStr "Online"); ("Transaction_Type_POS", VInt 1)] in
  let cm := [("Transaction_Type", "Transaction_Type")] in
  let expected := ["Transaction_Type_Online"; "Transaction_Type_POS"] in
  ("Transaction_Type", "Transaction_Type") ∈ cm
  ∧ dict_get input_dict "Transaction_Type" = Some (VStr "Online")
  ∧ "Transaction_Type_Online" ∈ expected
  ∧ ∃ out df,
      prepare_input_data input_dict expected (Some cm) = (out, Ok df)
      ∧ slot df "Transaction_Type_POS" = Some (VInt 1)
      ∧ ¬ one_hot_exclusive df expected "Transaction_Type" (VStr "Online").
Proof.
  cbn zeta. split; [by left|]. split; [reflexivity|]. split; [by left|].
  eexists _, _. split; [by vm_compute|]. split; [by vm_compute|].
  intros [_ H].
  specialize (H "Transaction_Type_POS").
  assert (slot
    {| columns := ["Transaction_Type_Online"; "Transaction_Type_POS"];
       rows := [[VInt 1; VInt 1]] |} "Transaction_Type_POS" = Some (VInt 0)) as Hbad.
  { apply H; [by right; left | by vm_compute | by vm_compute]. }
  by vm_compute in Hbad.
Qed.

(** C4, as the code has it. Provided no attribute of the mapping holds in
    the record an int of more than 4300 digits: for a mapping entry
    (raw, prefix) that meets the value [v] in the input, with the derived
    column (the prefix, an underscore and the text of [v]) not expected, the
    pass through the loop prints the line "Warning: Category '<text of v>'
    not found in model for feature '<raw>'" and leaves every slot as it was;
    the builder returns a table, that line is among the printed ones, the
    derived column is no column of the table, so that there is no slot
    under its name, and every expected column that no other entry and no
    numeric attribute assigns holds 0. *)
Theorem unknown_category_not_set input_dict expected cm raw prefix v :
  expected ≠ [] →
  (∀ o p z, (o, p) ∈ cm → dict_get input_dict o = Some (VInt z) →
            (Z.abs z < int_str_limit)%Z) →
  (raw, prefix) ∈ cm →
  dict_get input_dict raw = Some v →
  prefix +:+ "_" +:+ py_text v ∉ expected →
  (∀ fv, categorical_step input_dict expected (raw, prefix) fv
         = (["Warning: Category '" +:+ py_text v
             +:+ "' not found in model for feature '" +:+ raw +:+ "'"], Ok fv))
  ∧ ∃ out df,
      prepare_input_data input_dict expected (Some cm) = (out, Ok df)
      ∧ ("Warning: Category '" +:+ py_text v
         +:+ "' not found in model for feature '" +:+ raw +:+ "'") ∈ out
      ∧ (prefix +:+ "_" +:+ py_text v ∉ columns df)
      ∧ slot df (prefix +:+ "_" +:+ py_text v) = None
      ∧ ∀ c, c ∈ expected →
             (∀ o p w, (o, p) ∈ cm → (o, p) ≠ (raw, prefix) →
                       dict_get input_dict o = Some w →
                       c ≠ p +:+ "_" +:+ py_text w) →
             c ∉ dict_keys input_dict ∨ c ∈ dict_keys cm →
             slot df c = Some (VInt 0).
Proof.
  intros Hne Hconv%convertible_true Hcm Hv Hexp. split.
  - intros fv.
    rewrite (categorical_step_present _ _ _ _ _ _ Hv
               (str_ok_of_convertible _ _ _ _ _ Hconv Hcm Hv)).
    unfold list_contains. by rewrite bool_decide_eq_false_2 by done.
  - rewrite prepare_input_data_spec by done.
    eexists _, _. split; [done|]. cbn [columns].
    split; [|split; [done|split]].
    + apply elem_of_app. right. unfold category_warnings.
      apply list_elem_of_bind. exists (raw, prefix). split; [|done].
      unfold category_warning_of, list_contains. cbn [fst snd]. rewrite Hv.
      rewrite bool_decide_eq_false_2 by done. by left.
    + by rewrite slot_of_row, decide_False by done.
    + intros c Hc Hnone Hnum.
      rewrite slot_of_row, decide_True by done. f_equal.
      apply slot_value_zero; [|done].
      intros [o p] Hin. unfold derived_column. cbn [fst snd].
      destruct (dict_get input_dict o) as [w|] eqn:Hw; [|done].
      cbn. intros [= Heq].
      destruct (decide ((o, p) = (raw, prefix))) as [[= -> ->]|Hother].
      * rewrite Hv in Hw. injection Hw as ->. by rewrite Heq in Hexp.
      * by apply (Hnone o p w).
Qed.

Lemma unknown_category_not_set_witness :
  let expected := ["Hour"; "Location_London"; "Location_Tokyo"] in
  expected ≠ []
  ∧ (∀ o p z, (o, p) ∈ CATEGORICAL_MAPPING →
              dict_get transaction_data o = Some (VInt z) →
              (Z.abs z < int_str_limit)%Z)
  ∧ ("Location", "Location") ∈ CATEGORICAL_MAPPING
  ∧ dict_get transaction_data "Location" = Some (VStr "New York")
  ∧ ("Location_New York" ∉ expected)
  ∧ (∀ fv, categorical_step transaction_data expected ("Location", "Location") fv
           = (["Warning: Category 'New York' not found in model for feature 'Location'"],
              Ok fv))
  ∧ ∃ out df,
      prepare_input_data transaction_data expected (Some CATEGORICAL_MAPPING)
      = (out, Ok df)
      ∧ "Warning: Category 'New York' not found in model for feature 'Location'" ∈ out
      ∧ ("Location_New York" ∉ columns df)
      ∧ slot df "Location_New York" = None
      ∧ ∀ c, c ∈ expected →
             (∀ o p w, (o, p) ∈ CATEGORICAL_MAPPING → (o, p) ≠ ("Location", "Location") →
                       dict_get transaction_data o = Some w →
                       c ≠ p +:+ "_" +:+ py_text w) →
             c ∉ dict_keys transaction_data ∨ c ∈ dict_keys CATEGORICAL_MAPPING →
             slot df c = Some (VInt 0).
Proof.
  cbn zeta.
  assert (["Hour"; "Location_London"; "Location_Tokyo"] ≠ []) as H1 by done.
  assert (∀ o p z, (o, p) ∈ CATEGORICAL_MAPPING →
                   dict_get transaction_data o = Some (VInt z) →
                   (Z.abs z < int_str_limit)%Z) as H0
    by (apply convertible_true; reflexivity).
  assert (("Location", "Location") ∈ CATEGORICAL_MAPPING) as H2
    by (apply (bool_decide_unpack _); vm_compute; exact I).
  assert (dict_get transaction_data "Location" = Some (VStr "New York")) as H3
    by reflexivity.
  assert ("Location_New York" ∉ ["Hour"; "Location_London"; "Location_Tokyo"]) as H4
    by (apply (bool_decide_unpack _); vm_compute; exact I).
  repeat (split; [assumption|]).
  exact (unknown_category_not_set transaction_data _ CATEGORICAL_MAPPING
           "Location" "Location" (VStr "New York") H1 H0 H2 H3 H4).
Defined.

(** C4 as worded fails: when the value of the categorical attribute is the
    int 10 to the power 4300, its column name cannot be formatted; the
    builder raises at that attribute, prints no warning and returns no
    table. *)
Lemma unknown_category_not_set_counterexample :
  let input_dict := [("Hour", VInt 3); ("Location", VInt int_str_limit)] in
  ("Location", "Location") ∈ CATEGORICAL_MAPPING
  ∧ dict_get input_dict "Location" = Some (VInt int_str_limit)
  ∧ ("Location" +:+ "_" +:+ py_text (VInt int_str_limit) ∉ ["Hour"])
  ∧ prepare_input_data input_dict ["Hour"] (Some CATEGORICAL_MAPPING)
    = ([], Raise (Exc ValueError
         "Exceeds the limit (4300 digits) for integer string conversion; use sys.set_int_max_str_digits() to increase the limit")).
Proof.
  cbn zeta.
  split; [apply (bool_decide_unpack _); vm_compute; exact I|].
  split; [reflexivity|]. split.
  - intros H. apply list_elem_of_singleton in H. discriminate H.
  - vm_compute. reflexivity.
Qed.

(** ** Removing an attribute the builder does not use *)

Lemma dict_get_remove_ne {V} (d : pydict V) k c :
  c ≠ k → dict_get (dict_remove d k) c = dict_get d c.
Proof.
  intros Hne. unfold dict_remove.
  induction d as [|[k' v] d IH]; [done|].
  rewrite filter_cons. cbn [fst dict_get]. case_decide as Hk.
  - cbn [dict_get]. by rewrite IH.
  - rewrite IH. subst k'. by rewrite decide_False.
Qed.

Lemma dict_keys_remove {V} (d : pydict V) k c :
  c ∈ dict_keys (dict_remove d k) ↔ c ∈ dict_keys d ∧ c ≠ k.
Proof.
  unfold dict_keys, dict_remove. rewrite !list_elem_of_fmap. split.
  - intros ([k' v] & -> & [Hne Hin]%list_elem_of_filter). split; [|done].
    by exists (k', v).
  - intros [([k' v] & -> & Hin) Hne]. exists (k', v). split; [done|].
    by apply list_elem_of_filter.
Qed.

Lemma numeric_values_remove input_dict expected cm k :
  k ∉ expected →
  numeric_values (dict_remove input_dict k) expected cm
  = numeric_values input_dict expected cm.
Proof.
  intros Hk. unfold numeric_values. f_equal. apply list_fmap_ext.
  intros i c Hc. f_equal. unfold numeric_slot.
  rewrite dict_get_remove_ne; [done|].
  intros ->. apply Hk. by eapply list_elem_of_lookup_2.
Qed.

Lemma categorical_step_remove input_dict expected k o p fv :
  o ≠ k →
  categorical_step (dict_remove input_dict k) expected (o, p) fv
  = categorical_step input_dict expected (o, p) fv.
Proof.
  intros Hne. unfold categorical_step, dict_item.
  rewrite dict_get_remove_ne by done.
  assert (dict_contains (dict_remove input_dict k) o = dict_contains input_dict o)
    as ->; [|done].
  unfold dict_contains. apply bool_decide_ext. rewrite dict_keys_remove. tauto.
Qed.

(** C6. An input attribute whose name is neither a key of the categorical
    mapping nor an expected feature: the builder prints the line "Warning:
    Numerical feature '<name>' not used in model" for it and otherwise
    ignores it. Its result, the table or an error, is the result for the
    record without that attribute, so that no error is raised because of
    the attribute; a table that is returned has no column for it; and a
    table is returned whenever no attribute of the mapping holds an int of
    more than 4300 digits. *)
Theorem unused_attribute_ignored input_dict expected cm k :
  expected ≠ [] →
  k ∈ dict_keys input_dict →
  k ∉ dict_keys cm →
  k ∉ expected →
  ("Warning: Numerical feature '" +:+ k +:+ "' not used in model")
    ∈ (prepare_input_data input_dict expected (Some cm)).1
  ∧ result_of (prepare_input_data input_dict expected (Some cm))
    = result_of (prepare_input_data (dict_remove input_dict k) expected (Some cm))
  ∧ (∀ df, result_of (prepare_input_data input_dict expected (Some cm)) = Ok df →
           k ∉ columns df)
  ∧ ((∀ o p z, (o, p) ∈ cm → dict_get input_dict o = Some (VInt z) →
               (Z.abs z < int_str_limit)%Z) →
     ∃ df, result_of (prepare_input_data input_dict expected (Some cm)) = Ok df).
Proof.
  intros Hne Hin Hcm Hexp. split; [|split; [|split]].
  - rewrite prepare_input_data_output by done.
    apply elem_of_app. left. unfold numerical_warnings.
    apply list_elem_of_fmap. exists k. split; [done|].
    apply list_elem_of_filter. split; [done|].
    by apply elem_of_numerical_features.
  - rewrite !prepare_input_data_result by done.
    rewrite numeric_values_remove by done.
    rewrite (for_each_ext cm (categorical_step (dict_remove input_dict k) expected)
               (categorical_step input_dict expected)); [done|].
    intros [o p] Hitem fv. apply categorical_step_remove.
    intros ->. apply Hcm. unfold dict_keys. apply list_elem_of_fmap.
    by exists (k, p).
  - intros df. rewrite prepare_input_data_result by done.
    destruct (for_each cm (categorical_step input_dict expected)
                (numeric_values input_dict expected cm)).2 as [fv|e]; [|done].
    by intros [= <-].
  - intros Hconv%convertible_true.
    rewrite prepare_input_data_spec by done. by eexists.
Qed.

Lemma unused_attribute_ignored_witness :
  let expected := ["Hour"; "Location_New York"] in
  expected ≠ []
  ∧ "Risk_Score" ∈ dict_keys transaction_data
  ∧ ("Risk_Score" ∉ dict_keys CATEGORICAL_MAPPING)
  ∧ ("Risk_Score" ∉ expected)
  ∧ "Warning: Numerical feature 'Risk_Score' not used in model"
      ∈ (prepare_input_data transaction_data expected (Some CATEGORICAL_MAPPING)).1
  ∧ result_of (prepare_input_data transaction_data expected (Some CATEGORICAL_MAPPING))
    = result_of (prepare_input_data (dict_remove transaction_data "Risk_Score")
                   expected (Some CATEGORICAL_MAPPING)).
Proof.
  cbn zeta.
  assert (["Hour"; "Location_New York"] ≠ []) as H1 by done.
  assert ("Risk_Score" ∈ dict_keys transaction_data) as H2
    by (apply (bool_decide_unpack _); vm_compute; exact I).
  assert ("Risk_Score" ∉ dict_keys CATEGORICAL_MAPPING) as H3
    by (apply (bool_decide_unpack _); vm_compute; exact I).
  assert ("Risk_Score" ∉ ["Hour"; "Location_New York"]) as H4
    by (apply (bool_decide_unpack _); vm_compute; exact I).
  repeat (split; [assumption|]).
  pose proof (unused_attribute_ignored transaction_data _ CATEGORICAL_MAPPING
                "Risk_Score" H1 H2 H3 H4) as (Hw & Hr & _).
  split; [exact Hw | exact Hr].
Defined.

(** ** The loader *)

(** C7. The loader returns, for a dict with a model slot, the model and
    the three metadata lists, an absent list read as empty; for any other
    loaded value, that value with three empty lists; and when the
    deserialization raises, it raises a ValueError whose text is
    "Error loading model: " followed by the text of the cause. *)
Theorem load_model_with_metadata_cases joblib_load model_path :
  (∀ model fn cf tc,
     joblib_load model_path = Ok (Dict (Some model) fn cf tc) →
     load_model_with_metadata joblib_load model_path
     = ([], Ok (model, default [] fn, default [] cf, default [] tc)))
  ∧ (∀ v,
       joblib_load model_path = Ok v →
       (∀ model fn cf tc, v ≠ Dict (Some model) fn cf tc) →
       load_model_with_metadata joblib_load model_path = ([], Ok (v, [], [], [])))
  ∧ (∀ e,
       joblib_load model_path = Raise e →
       load_model_with_metadata joblib_load model_path
       = ([], Raise (Exc ValueError ("Error loading model: " +:+ exc_str e)))).
Proof.
  unfold load_model_with_metadata. split; [|split].
  - by intros model fn cf tc ->.
  - intros v -> Hv. destruct v as [m|[model|] fn cf tc|name]; try done.
    by destruct (Hv model fn cf tc).
  - by intros e ->.
Qed.

Lemma load_model_with_metadata_cases_witness :
  let joblib_load :=
    λ _ : string, Ok (reference_artifact (constant_estimator (LInt 0) (Fin 0))) in
  load_model_with_metadata joblib_load MODEL_PATH
  = ([], Ok (Estimator (constant_estimator (LInt 0) (Fin 0)),
             reference_features, [], [])).
Proof.
  cbn zeta.
  exact (proj1 (load_model_with_metadata_cases
                  (λ _, Ok (reference_artifact (constant_estimator (LInt 0) (Fin 0))))
                  MODEL_PATH)
           _ (Some reference_features) None None eq_refl).
Defined.

(** ** The predictor *)

Lemma predict_fraud_silent model df : (predict_fraud model df).1 = [].
Proof.
  unfold predict_fraud.
  destruct model as [m| |]; cbn [method_of]; [|done..].
  rewrite bind_lift_ok. destruct (predict m df) as [l|]; [|done].
  rewrite !bind_lift_ok. destruct (predict_proba m df) as [a|]; [|done].
  rewrite bind_lift_ok. destruct (column_1 a) as [c|]; [|done].
  rewrite bind_lift_ok. destruct (index_0 l); [|done].
  rewrite bind_lift_ok. by destruct (index_0 c).
Qed.

Lemma predict_fraud_predict_raises m df e :
  predict m df = Raise e →
  predict_fraud (Estimator m) df
  = ([], Raise (Exc ValueError ("Prediction error: " +:+ exc_str e))).
Proof. intros H. unfold predict_fraud. cbn [method_of]. by rewrite bind_lift_ok, H. Qed.

Lemma predict_fraud_proba_raises m df l e :
  predict m df = Ok l →
  predict_proba m df = Raise e →
  predict_fraud (Estimator m) df
  = ([], Raise (Exc ValueError ("Prediction error: " +:+ exc_str e))).
Proof.
  intros H1 H2. unfold predict_fraud. cbn [method_of].
  by rewrite bind_lift_ok, H1, bind_lift_ok, bind_lift_ok, H2.
Qed.

(** Every error of the predictor is a ValueError that starts with
    "Prediction error: ". *)
Lemma predict_fraud_error_shape model df out e :
  predict_fraud model df = (out, Raise e) →
  ∃ cause, e = Exc ValueError ("Prediction error: " +:+ exc_str cause).
Proof.
  unfold predict_fraud, try_except.
  match goal with |- context [match ?c with _ => _ end] => destruct c as [o [a|e0]] end.
  - done.
  - cbn. intros [= _ <-]. by exists e0.
Qed.

(** ** The orchestration *)

Lemma resolve_feature_names_spec model fn :
  resolve_feature_names model fn = (tail (preamble model fn), Ok (features_of model fn)).
Proof.
  unfold resolve_feature_names, preamble, features_of.
  case_bool_decide as Hfn; [subst fn|done].
  destruct model as [m| |]; [|done..].
  destruct (feature_names_in_ m); [done|]. by destruct (is_Pipeline m).
Qed.

Lemma truth_true_nonempty fs : truth fs = Ok true → seq_items fs ≠ [].
Proof. destruct fs as [[|? ?]|[|? ?]]; by cbn. Qed.

Lemma predict_and_report_known model fs :
  truth fs = Ok true →
  predict_and_report model fs
  = (expected_line (seq_items fs) :: builder_warnings (seq_items fs)
       ++ (report_of (predict_fraud model (built_table (seq_items fs))).2).1,
     (report_of (predict_fraud model (built_table (seq_items fs))).2).2).
Proof.
  intros Hfs. unfold predict_and_report. rewrite Hfs, bind_lift_ok. cbn [negb].
  rewrite bind_print. cbn [fst snd]. fold (expected_line (seq_items fs)).
  rewrite prepare_input_data_spec
    by (by apply truth_true_nonempty || reflexivity).
  fold (builder_warnings (seq_items fs)) (built_table (seq_items fs)).
  rewrite bind_ok. cbn [fst snd].
  pose proof (predict_fraud_silent model (built_table (seq_items fs))) as Hout.
  destruct (predict_fraud model (built_table (seq_items fs))) as [out r].
  cbn [fst snd] in *. subst out.
  destruct r as [[[|z] p]|e]; cbn [bind report_of fst snd app]; try done.
Qed.

Lemma main_try_loaded joblib_load model fn cf tc :
  load_model_with_metadata joblib_load MODEL_PATH = ([], Ok (model, fn, cf, tc)) →
  main_try joblib_load
  = (preamble model fn ++ (predict_and_report model (features_of model fn)).1,
     (predict_and_report model (features_of model fn)).2).
Proof.
  intros Hload. unfold main_try. rewrite Hload, bind_ok. cbn [fst snd app].
  rewrite bind_print. cbn [fst snd].
  rewrite resolve_feature_names_spec, bind_ok. cbn [fst snd].
  by unfold preamble.
Qed.

(** The loader prints nothing, and its errors are ValueErrors that start
    with "Error loading model: ". *)
Lemma load_model_with_metadata_result joblib_load path :
  (∃ model fn cf tc,
     load_model_with_metadata joblib_load path = ([], Ok (model, fn, cf, tc)))
  ∨ (∃ e, joblib_load path = Raise e
        ∧ load_model_with_metadata joblib_load path
          = ([], Raise (Exc ValueError ("Error loading model: " +:+ exc_str e)))).
Proof.
  unfold load_model_with_metadata.
  destruct (joblib_load path) as [v|e]; [left|right; by exists e].
  destruct v as [m|[model|] fn cf tc|name]; cbn; eauto 10.
Qed.

Lemma main_loaded joblib_load model fn cf tc :
  load_model_with_metadata joblib_load MODEL_PATH = ([], Ok (model, fn, cf, tc)) →
  main joblib_load
  = let out := preamble model fn
                 ++ (predict_and_report model (features_of model fn)).1 in
    match (predict_and_report model (features_of model fn)).2 with
    | Ok _ => {| stdout := out; stderr := []; ending := Returned |}
    | Raise e =>
        {| stdout := out; stderr := ["Error: " +:+ exc_str e]; ending := SysExit 1 |}
    end.
Proof. intros Hload. unfold main. by rewrite (main_try_loaded _ _ _ _ _ Hload). Qed.

Lemma main_known joblib_load model fn cf tc r :
  load_model_with_metadata joblib_load MODEL_PATH = ([], Ok (model, fn, cf, tc)) →
  truth (features_of model fn) = Ok true →
  predict_fraud model (built_table (seq_items (features_of model fn))) = ([], r) →
  main joblib_load
  = let names := seq_items (features_of model fn) in
    let out := preamble model fn ++ expected_line names :: builder_warnings names
                 ++ (report_of r).1 in
    match (report_of r).2 with
    | Ok _ => {| stdout := out; stderr := []; ending := Returned |}
    | Raise e =>
        {| stdout := out; stderr := ["Error: " +:+ exc_str e]; ending := SysExit 1 |}
    end.
Proof.
  intros Hload Hfs Hp. rewrite (main_loaded _ _ _ _ _ Hload).
  rewrite (predict_and_report_known _ _ Hfs), Hp. done.
Qed.


(** C2. When the model's [predict] raises, or [predict] returns and
    [predict_proba] raises, the predictor raises a ValueError whose text is
    "Prediction error: " followed by the text of the cause. In particular,
    when the loaded model refuses the table built for the feature list of
    the artifact, which holds the one-hot columns and none of the raw keys
    of the mapping, with an error "columns are missing: ..." that names the
    raw columns it misses, the predictor raises "Prediction error: columns
    are missing: ..." with the same names, and [main] prints the two lines
    of the reference run, that error on standard error, and exits with
    status 1. *)
Theorem predict_fraud_prediction_error :
  (∀ m df e,
     predict m df = Raise e →
     predict_fraud (Estimator m) df
     = ([], Raise (Exc ValueError ("Prediction error: " +:+ exc_str e))))
  ∧ (∀ m df l e,
       predict m df = Ok l →
       predict_proba m df = Raise e →
       predict_fraud (Estimator m) df
       = ([], Raise (Exc ValueError ("Prediction error: " +:+ exc_str e))))
  ∧ (∀ joblib_load m cf tc class missing,
       load_model_with_metadata joblib_load MODEL_PATH
       = ([], Ok (Estimator m, reference_features, cf, tc)) →
       predict m (built_table reference_features)
       = Raise (Exc class ("columns are missing: " +:+ missing)) →
       prepare_input_data transaction_data reference_features (Some CATEGORICAL_MAPPING)
       = ([], Ok (built_table reference_features))
       ∧ Forall (λ raw, raw ∉ columns (built_table reference_features))
           (dict_keys CATEGORICAL_MAPPING)
       ∧ predict_fraud (Estimator m) (built_table reference_features)
         = ([], Raise (Exc ValueError
              ("Prediction error: columns are missing: " +:+ missing)))
       ∧ main joblib_load
         = {| stdout := ["Model loaded successfully";
                         "Expected features: " +:+ py_repr_list reference_features];
              stderr := ["Error: Prediction error: columns are missing: " +:+ missing];
              ending := SysExit 1 |}).
Proof.
  split; [exact predict_fraud_predict_raises|].
  split; [exact predict_fraud_proba_raises|].
  intros joblib_load m cf tc class missing Hload Hp.
  assert (predict_fraud (Estimator m) (built_table reference_features)
          = ([], Raise (Exc ValueError
               ("Prediction error: columns are missing: " +:+ missing)))) as Hpf
    by exact (predict_fraud_predict_raises m _ _ Hp).
  split; [by vm_compute|].
  split; [apply (bool_decide_unpack _); vm_compute; exact I|].
  split; [exact Hpf|].
  assert (features_of (Estimator m) reference_features = FList reference_features)
    as Hfs by reflexivity.
  assert (truth (features_of (Estimator m) reference_features) = Ok true) as Htruth
    by reflexivity.
  rewrite (main_known _ _ _ _ _ _ Hload Htruth) by (rewrite Hfs; exact Hpf).
  rewrite Hfs. cbn [seq_items report_of fst snd].
  assert (builder_warnings reference_features = []) as -> by (by vm_compute).
  unfold preamble. rewrite bool_decide_eq_false_2 by done. reflexivity.
Qed.

(** The reference run: the loaded pipeline misses the five raw categorical
    columns. *)
Lemma predict_fraud_prediction_error_witness :
  let cause :=
    Exc ValueError
      "columns are missing: {'Device_Type', 'Authentication_Method', 'Merchant_Category', 'Location', 'Transaction_Type'}" in
  let joblib_load := λ _ : string, Ok (reference_artifact (failing_estimator cause)) in
  load_model_with_metadata joblib_load MODEL_PATH
  = ([], Ok (Estimator (failing_estimator cause), reference_features, [], []))
  ∧ predict (failing_estimator cause) (built_table reference_features) = Raise cause
  ∧ predict_fraud (Estimator (failing_estimator cause)) (built_table reference_features)
    = ([], Raise (Exc ValueError
         "Prediction error: columns are missing: {'Device_Type', 'Authentication_Method', 'Merchant_Category', 'Location', 'Transaction_Type'}"))
  ∧ main joblib_load = reference_run.
Proof.
  intros cause joblib_load.
  assert (load_model_with_metadata joblib_load MODEL_PATH
          = ([], Ok (Estimator (failing_estimator cause), reference_features, [], [])))
    as H1 by reflexivity.
  assert (predict (failing_estimator cause) (built_table reference_features)
          = Raise cause) as H2 by reflexivity.
  repeat (split; [assumption|]).
  pose proof (proj2 (proj2 predict_fraud_prediction_error) joblib_load
                (failing_estimator cause) [] [] ValueError
                "{'Device_Type', 'Authentication_Method', 'Merchant_Category', 'Location', 'Transaction_Type'}"
                H1 H2) as (_ & _ & Hp & Hm).
  split; [exact Hp | exact Hm].
Defined.






(** ** Formatting, on examples *)

Example py_repr_list_ex :
  py_repr_list ["Hour"; "Location_New York"] = "['Hour', 'Location_New York']".
Proof. reflexivity. Qed.

Example py_str_int_ex : py_str (VInt (-15)) = Ok "-15".
Proof. reflexivity. Qed.

Example format_4f_ex :
  format_4f (Fin (3 # 2)) = "1.5000"
  ∧ format_4f (Fin (12345678 # 10000000)) = "1.2346"
  ∧ format_4f (Fin (1 # 32)) = "0.0312"
  ∧ format_4f (Fin (3 # 32)) = "0.0938"
  ∧ format_4f (Fin (-(1 # 4))) = "-0.2500"
  ∧ format_4f NaN = "nan".
Proof. repeat split; reflexivity. Qed.

(** The builder on the example transaction with three expected features,
    one of them unknown to the input. *)
Example prepare_input_data_ex :
  result_of (prepare_input_data transaction_data ["Hour"; "Location_New York"; "Zed"]
               (Some CATEGORICAL_MAPPING))
  = Ok {| columns := ["Hour"; "Location_New York"; "Zed"];
          rows := [[VInt 3; VInt 1; VInt 0]] |}.
Proof. by vm_compute. Qed.

(** * Further properties of the builder *)

Lemma not_derived (input_dict : pydict pyval) (cm : pydict string) c :
  (∀ o p w, (o, p) ∈ cm → dict_get input_dict o = Some w →
            c ≠ p +:+ "_" +:+ py_text w) →
  ∀ item, item ∈ cm → derived_column input_dict item ≠ Some c.
Proof.
  intros H [o p] Hin. unfold derived_column. cbn [fst snd].
  destruct (dict_get input_dict o) as [w|] eqn:Hw; [|done].
  cbn. intros [= Heq]. by apply (H o p w).
Qed.

(** X1. Provided no attribute of the mapping holds in the record an int of
    more than 4300 digits: an input attribute outside the mapping whose name
    is an expected feature is copied into its column as it is, unless a
    mapping entry derives that very column. *)
Theorem numeric_attribute_copied input_dict expected cm k v :
  expected ≠ [] →
  (∀ o p z, (o, p) ∈ cm → dict_get input_dict o = Some (VInt z) →
            (Z.abs z < int_str_limit)%Z) →
  dict_get input_dict k = Some v →
  k ∉ dict_keys cm →
  k ∈ expected →
  (∀ o p w, (o, p) ∈ cm → dict_get input_dict o = Some w →
            k ≠ p +:+ "_" +:+ py_text w) →
  ∃ out df,
    prepare_input_data input_dict expected (Some cm) = (out, Ok df)
    ∧ slot df k = Some v.
Proof.
  intros Hne Hconv%convertible_true Hv Hcm Hexp Hnone'.
  pose proof (proj2 (one_hot_set_false _ _ _) (not_derived _ _ _ Hnone')) as Hnone.
  rewrite prepare_input_data_spec by done.
  eexists _, _. split; [done|].
  rewrite slot_of_row, decide_True by done. f_equal.
  unfold slot_value, numeric_slot, dict_contains. rewrite Hnone, Hv.
  by rewrite bool_decide_eq_false_2.
Qed.

Lemma numeric_attribute_copied_witness :
  reference_features ≠ []
  ∧ (∀ o p z, (o, p) ∈ CATEGORICAL_MAPPING →
              dict_get transaction_data o = Some (VInt z) →
              (Z.abs z < int_str_limit)%Z)
  ∧ dict_get transaction_data "Risk_Score" = Some (VFloat "0.9")
  ∧ ("Risk_Score" ∉ dict_keys CATEGORICAL_MAPPING)
  ∧ "Risk_Score" ∈ reference_features
  ∧ ∃ out df,
      prepare_input_data transaction_data reference_features (Some CATEGORICAL_MAPPING)
      = (out, Ok df)
      ∧ slot df "Risk_Score" = Some (VFloat "0.9").
Proof.
  assert (reference_features ≠ []) as H1 by done.
  assert (∀ o p z, (o, p) ∈ CATEGORICAL_MAPPING →
                   dict_get transaction_data o = Some (VInt z) →
                   (Z.abs z < int_str_limit)%Z) as H0
    by (apply convertible_true; reflexivity).
  assert (dict_get transaction_data "Risk_Score" = Some (VFloat "0.9")) as H2
    by reflexivity.
  assert ("Risk_Score" ∉ dict_keys CATEGORICAL_MAPPING) as H3
    by (apply (bool_decide_unpack _); vm_compute; exact I).
  assert ("Risk_Score" ∈ reference_features) as H4
    by (apply (bool_decide_unpack _); vm_compute; exact I).
  assert (∀ o p w, (o, p) ∈ CATEGORICAL_MAPPING →
                   dict_get transaction_data o = Some w →
                   "Risk_Score" ≠ p +:+ "_" +:+ py_text w) as H5.
  { intros o p w Hin Hw.
    unfold CATEGORICAL_MAPPING in Hin.
    repeat (apply elem_of_cons in Hin as [[= -> ->]|Hin];
            [vm_compute in Hw; injection Hw as <-; discriminate|]).
    by apply elem_of_nil in Hin. }
  repeat (split; [assumption|]).
  exact (numeric_attribute_copied transaction_data reference_features
           CATEGORICAL_MAPPING "Risk_Score" (VFloat "0.9") H1 H0 H2 H3 H4 H5).
Defined.

(** X2. Provided no attribute of the mapping holds in the record an int of
    more than 4300 digits: the raw value of an attribute that is a key of
    the mapping is never copied. When its own name is an expected feature,
    that column holds 0 (unless a mapping entry derives that name as a
    one-hot column). *)
Theorem mapped_attribute_not_copied input_dict expected cm k :
  expected ≠ [] →
  (∀ o p z, (o, p) ∈ cm → dict_get input_dict o = Some (VInt z) →
            (Z.abs z < int_str_limit)%Z) →
  k ∈ dict_keys cm →
  k ∈ expected →
  (∀ o p w, (o, p) ∈ cm → dict_get input_dict o = Some w →
            k ≠ p +:+ "_" +:+ py_text w) →
  ∃ out df,
    prepare_input_data input_dict expected (Some cm) = (out, Ok df)
    ∧ slot df k = Some (VInt 0).
Proof.
  intros Hne Hconv%convertible_true Hcm Hexp Hnone'.
  pose proof (not_derived _ _ _ Hnone') as Hnone.
  rewrite prepare_input_data_spec by done.
  eexists _, _. split; [done|].
  rewrite slot_of_row, decide_True by done. f_equal.
  apply slot_value_zero; [done | by right].
Qed.

Lemma mapped_attribute_not_copied_witness :
  let expected := ["Transaction_Type"; "Transaction_Type_Online"] in
  expected ≠ []
  ∧ (∀ o p z, (o, p) ∈ CATEGORICAL_MAPPING →
              dict_get transaction_data o = Some (VInt z) →
              (Z.abs z < int_str_limit)%Z)
  ∧ "Transaction_Type" ∈ dict_keys CATEGORICAL_MAPPING
  ∧ "Transaction_Type" ∈ expected
  ∧ dict_get transaction_data "Transaction_Type" = Some (VStr "Online")
  ∧ ∃ out df,
      prepare_input_data transaction_data expected (Some CATEGORICAL_MAPPING)
      = (out, Ok df)
      ∧ slot df "Transaction_Type" = Some (VInt 0).
Proof.
  cbn zeta.
  assert (["Transaction_Type"; "Transaction_Type_Online"] ≠ []) as H1 by done.
  assert (∀ o p z, (o, p) ∈ CATEGORICAL_MAPPING →
                   dict_get transaction_data o = Some (VInt z) →
                   (Z.abs z < int_str_limit)%Z) as H0
    by (apply convertible_true; reflexivity).
  assert ("Transaction_Type" ∈ dict_keys CATEGORICAL_MAPPING) as H2
    by (apply (bool_decide_unpack _); vm_compute; exact I).
  assert ("Transaction_Type" ∈ ["Transaction_Type"; "Transaction_Type_Online"])
    as H3 by (by left).
  assert (∀ o p w, (o, p) ∈ CATEGORICAL_MAPPING →
                   dict_get transaction_data o = Some w →
                   "Transaction_Type" ≠ p +:+ "_" +:+ py_text w) as H4.
  { intros o p w Hin Hw.
    unfold CATEGORICAL_MAPPING in Hin.
    repeat (apply elem_of_cons in Hin as [[= -> ->]|Hin];
            [vm_compute in Hw; injection Hw as <-; discriminate|]).
    by apply elem_of_nil in Hin. }
  assert (dict_get transaction_data "Transaction_Type" = Some (VStr "Online")) as H5
    by reflexivity.
  repeat (split; [assumption|]).
  exact (mapped_attribute_not_copied transaction_data _ CATEGORICAL_MAPPING
           "Transaction_Type" H1 H0 H2 H3 H4).
Defined.

Lemma category_warnings_empty_input expected cm :
  category_warnings [] expected cm = [].
Proof. unfold category_warnings. by induction cm as [|[o p] cm IH]. Qed.

Lemma convertible_empty_input cm : convertible [] cm = true.
Proof. unfold convertible. by induction cm as [|[o p] cm IH]. Qed.

(** X3. For an empty input record the builder prints nothing and returns
    the row of zeros, with any mapping and with the mapping left at None. *)
Theorem empty_record_all_zero expected categorical_mapping :
  expected ≠ [] →
  prepare_input_data [] expected categorical_mapping
  = ([], Ok {| columns := expected; rows := [(λ _, VInt 0) <$> expected] |}).
Proof.
  intros Hne. destruct categorical_mapping as [cm|].
  - rewrite prepare_input_data_spec by (done || apply convertible_empty_input).
    rewrite category_warnings_empty_input.
    do 4 f_equal. apply list_fmap_ext. intros i c _.
    apply slot_value_zero; [|left; apply not_elem_of_nil].
    by intros item _.
  - unfold prepare_input_data, build_feature_values.
    rewrite bool_decide_eq_false_2 by done.
    cbn [dict_keys fmap list_fmap comprehension_if mapping_truthy].
    rewrite bind_ret_l. cbn [for_each]. rewrite !bind_ret_l.
    unfold ret, DataFrame_of_records. cbn [fmap list_fmap].
    do 4 f_equal.
    apply list_fmap_ext. intros i c Hc.
    rewrite zero_features_lookup, decide_True; [done|].
    by eapply list_elem_of_lookup_2.
Qed.

Lemma empty_record_all_zero_witness :
  ["Hour"; "Location_London"] ≠ []
  ∧ prepare_input_data [] ["Hour"; "Location_London"] None
    = ([], Ok {| columns := ["Hour"; "Location_London"];
                 rows := [[VInt 0; VInt 0]] |}).
Proof.
  split; [done|].
  exact (empty_record_all_zero ["Hour"; "Location_London"] None
           ltac:(discriminate)).
Defined.

(** X4. Provided no attribute of the mapping holds in the record an int of
    more than 4300 digits: every cell of the row the builder returns is 0,
    1, or the value the input record has under an expected feature that is
    no key of the mapping; nothing else reaches the table. *)
Theorem cells_zero_one_or_input input_dict expected cm :
  expected ≠ [] →
  (∀ o p z, (o, p) ∈ cm → dict_get input_dict o = Some (VInt z) →
            (Z.abs z < int_str_limit)%Z) →
  ∃ out row,
    prepare_input_data input_dict expected (Some cm)
    = (out, Ok {| columns := expected; rows := [row] |})
    ∧ ∀ cell, cell ∈ row →
        cell = VInt 0 ∨ cell = VInt 1
        ∨ ∃ k, k ∈ expected ∧ (k ∉ dict_keys cm) ∧ dict_get input_dict k = Some cell.
Proof.
  intros Hne Hconv%convertible_true. rewrite prepare_input_data_spec by done.
  eexists _, _. split; [done|].
  intros cell (c & -> & Hc)%list_elem_of_fmap.
  unfold slot_value, numeric_slot, dict_contains.
  destruct (one_hot_set input_dict cm c); [by right; left|].
  destruct (dict_get input_dict c) as [v|] eqn:Hv; [|by left].
  case_bool_decide; [by left|]. right; right. by exists c.
Qed.

Lemma cells_zero_one_or_input_witness :
  reference_features ≠ []
  ∧ (∀ o p z, (o, p) ∈ CATEGORICAL_MAPPING →
              dict_get transaction_data o = Some (VInt z) →
              (Z.abs z < int_str_limit)%Z)
  ∧ ∃ out row,
      prepare_input_data transaction_data reference_features (Some CATEGORICAL_MAPPING)
      = (out, Ok {| columns := reference_features; rows := [row] |})
      ∧ ∀ cell, cell ∈ row →
          cell = VInt 0 ∨ cell = VInt 1
          ∨ ∃ k, k ∈ reference_features ∧ (k ∉ dict_keys CATEGORICAL_MAPPING)
                 ∧ dict_get transaction_data k = Some cell.
Proof.
  assert (reference_features ≠ []) as H1 by done.
  assert (∀ o p z, (o, p) ∈ CATEGORICAL_MAPPING →
                   dict_get transaction_data o = Some (VInt z) →
                   (Z.abs z < int_str_limit)%Z) as H0
    by (apply convertible_true; reflexivity).
  repeat (split; [assumption|]).
  exact (cells_zero_one_or_input transaction_data reference_features
           CATEGORICAL_MAPPING H1 H0).
Defined.

(** X5. Provided no attribute of the mapping holds in the record an int of
    more than 4300 digits: the builder prints no warning exactly when every
    input attribute outside the mapping is an expected feature and every
    mapping entry whose attribute the input has derives an expected
    column. *)
Theorem no_warning_iff input_dict expected cm :
  expected ≠ [] →
  (∀ o p z, (o, p) ∈ cm → dict_get input_dict o = Some (VInt z) →
            (Z.abs z < int_str_limit)%Z) →
  (prepare_input_data input_dict expected (Some cm)).1 = []
  ↔ (∀ k, k ∈ dict_keys input_dict → k ∉ dict_keys cm → k ∈ expected)
    ∧ (∀ o p v, (o, p) ∈ cm → dict_get input_dict o = Some v →
                p +:+ "_" +:+ py_text v ∈ expected).
Proof.
  intros Hne Hconv%convertible_true.
  rewrite prepare_input_data_spec by done. cbn [fst].
  rewrite app_nil. unfold numerical_warnings, category_warnings. split.
  - intros [Hnum Hcat]. split.
    + intros k Hk Hcm. destruct (decide (k ∈ expected)) as [|Hexp]; [done|].
      exfalso. apply fmap_nil_inv in Hnum.
      eapply (filter_nil_not_elem_of _ _ k Hnum Hexp).
      by apply elem_of_numerical_features.
    + intros o p v Hitem Hv.
      destruct (decide (p +:+ "_" +:+ py_text v ∈ expected)) as [|Hexp]; [done|].
      exfalso.
      assert (("Warning: Category '" +:+ py_text v
               +:+ "' not found in model for feature '" +:+ o +:+ "'")
              ∈ @nil string) as Hbad;
        [|by apply elem_of_nil in Hbad].
      rewrite <-Hcat. apply list_elem_of_bind. exists (o, p). split; [|done].
      unfold category_warning_of, list_contains. cbn [fst snd]. rewrite Hv.
      rewrite bool_decide_eq_false_2 by done. by left.
  - intros [Hnum Hcat]. split.
    + apply elem_of_nil_inv. intros w (k & -> & Hk)%list_elem_of_fmap.
      apply list_elem_of_filter in Hk as [Hexp Hk].
      apply elem_of_numerical_features in Hk as [Hk Hcm]. by apply Hexp, Hnum.
    + apply elem_of_nil_inv. intros w ([o p] & Hw & Hitem)%list_elem_of_bind.
      unfold category_warning_of, list_contains in Hw. cbn [fst snd] in Hw.
      destruct (dict_get input_dict o) as [v|] eqn:Hv;
        [|by apply elem_of_nil in Hw].
      rewrite bool_decide_eq_true_2 in Hw by (by eapply Hcat).
      by apply elem_of_nil in Hw.
Qed.

Lemma no_warning_iff_witness :
  reference_features ≠ []
  ∧ (∀ o p z, (o, p) ∈ CATEGORICAL_MAPPING →
              dict_get transaction_data o = Some (VInt z) →
              (Z.abs z < int_str_limit)%Z)
  ∧ (prepare_input_data transaction_data reference_features
       (Some CATEGORICAL_MAPPING)).1 = []
  ∧ (∀ k, k ∈ dict_keys transaction_data → k ∉ dict_keys CATEGORICAL_MAPPING →
          k ∈ reference_features).
Proof.
  assert (reference_features ≠ []) as H1 by done.
  assert (∀ o p z, (o, p) ∈ CATEGORICAL_MAPPING →
                   dict_get transaction_data o = Some (VInt z) →
                   (Z.abs z < int_str_limit)%Z) as H0
    by (apply convertible_true; reflexivity).
  assert ((prepare_input_data transaction_data reference_features
             (Some CATEGORICAL_MAPPING)).1 = []) as H2 by (by vm_compute).
  repeat (split; [assumption|]).
  exact (proj1 (proj1 (no_warning_iff transaction_data reference_features
                         CATEGORICAL_MAPPING H1 H0) H2)).
Defined.

(** ** Records with the same lookups *)

Lemma numeric_values_ext d1 d2 expected cm :
  (∀ k, dict_get d1 k = dict_get d2 k) →
  numeric_values d1 expected cm = numeric_values d2 expected cm.
Proof.
  intros H. unfold numeric_values. f_equal. apply list_fmap_ext.
  intros i c _. f_equal. unfold numeric_slot. by rewrite H.
Qed.

Lemma categorical_step_ext d1 d2 expected item fv :
  (∀ k, dict_get d1 k = dict_get d2 k) →
  categorical_step d1 expected item fv = categorical_step d2 expected item fv.
Proof.
  intros H. destruct item as [o p]. unfold categorical_step, dict_item.
  rewrite H.
  assert (dict_contains d1 o = dict_contains d2 o) as ->; [|done].
  unfold dict_contains. apply bool_decide_ext.
  by rewrite <-!dict_get_is_Some, H.
Qed.

Lemma same_lookups_nil (d1 d2 : pydict pyval) :
  (∀ k, dict_get d1 k = dict_get d2 k) → d1 = [] → d2 = [].
Proof.
  intros H ->. destruct d2 as [|[k v] d2]; [done|].
  specialize (H k). cbn in H. by rewrite decide_True in H.
Qed.

Lemma membership_on_none_raises k v (d : pydict pyval) expected :
  expected ≠ [] →
  prepare_input_data ((k, v) :: d) expected None
  = ([], Raise (Exc TypeError "argument of type 'NoneType' is not iterable")).
Proof.
  intros Hne. unfold prepare_input_data, build_feature_values.
  by rewrite bool_decide_eq_false_2 by done.
Qed.

(** X6. The table depends on the input record only through its lookups:
    two records that give the same value (or none) under every name, such as
    one record with its attributes in another order, give the same result,
    table or error, with any mapping argument. *)
Theorem table_depends_on_lookups d1 d2 expected categorical_mapping :
  (∀ k, dict_get d1 k = dict_get d2 k) →
  result_of (prepare_input_data d1 expected categorical_mapping)
  = result_of (prepare_input_data d2 expected categorical_mapping).
Proof.
  intros H. destruct (decide (expected = [])) as [->|Hne]; [done|].
  destruct categorical_mapping as [cm|].
  - rewrite !prepare_input_data_result by done.
    rewrite (numeric_values_ext d1 d2) by done.
    rewrite (for_each_ext cm (categorical_step d1 expected)
               (categorical_step d2 expected)); [done|].
    intros item _ fv. by apply categorical_step_ext.
  - destruct d1 as [|[k1 v1] d1].
    + by rewrite (same_lookups_nil [] d2 H eq_refl).
    + destruct d2 as [|[k2 v2] d2].
      * assert (∀ k, dict_get [] k = dict_get ((k1, v1) :: d1) k) as H'
          by (intros k; by rewrite H).
        by pose proof (same_lookups_nil _ _ H' eq_refl).
      * by rewrite !membership_on_none_raises.
Qed.

Lemma table_depends_on_lookups_witness :
  let d1 := [("Hour", VInt 3); ("Location", VStr "Tokyo")] in
  let d2 := [("Location", VStr "Tokyo"); ("Hour", VInt 3)] in
  (∀ k, dict_get d1 k = dict_get d2 k)
  ∧ result_of (prepare_input_data d1 ["Hour"; "Location_Tokyo"]
                 (Some CATEGORICAL_MAPPING))
    = result_of (prepare_input_data d2 ["Hour"; "Location_Tokyo"]
                   (Some CATEGORICAL_MAPPING)).
Proof.
  cbn zeta.
  assert (∀ k, dict_get [("Hour", VInt 3); ("Location", VStr "Tokyo")] k
               = dict_get [("Location", VStr "Tokyo"); ("Hour", VInt 3)] k) as H.
  { intros k. cbn [dict_get]. repeat case_decide; congruence. }
  split; [assumption|].
  exact (table_depends_on_lookups _ _ ["Hour"; "Location_Tokyo"]
           (Some CATEGORICAL_MAPPING) H).
Defined.

(** ** Mapping entries for attributes the record lacks *)

Lemma filter_iff_on_elems {A} (P1 P2 : A → Prop)
    `{!∀ x, Decision (P1 x), !∀ x, Decision (P2 x)} (l : list A) :
  (∀ x, x ∈ l → P1 x ↔ P2 x) → filter P1 l = filter P2 l.
Proof.
  induction l as [|x l IH]; intros Hiff; [done|].
  rewrite !filter_cons, IH by (intros; apply Hiff; by right).
  destruct (Hiff x) as [H12 H21]; [by left|].
  repeat case_decide; try done; exfalso; tauto.
Qed.

Lemma numeric_values_remove_entry input_dict expected cm o :
  dict_get input_dict o = None →
  numeric_values input_dict expected (dict_remove cm o)
  = numeric_values input_dict expected cm.
Proof.
  intros Ho. unfold numeric_values. f_equal. apply list_fmap_ext.
  intros i c _. f_equal. unfold numeric_slot.
  destruct (dict_get input_dict c) as [v|] eqn:Hv; [|done].
  assert (dict_contains (dict_remove cm o) c = dict_contains cm c) as ->; [|done].
  unfold dict_contains. apply bool_decide_ext. rewrite dict_keys_remove.
  split; [tauto|]. intros Hc. split; [done|]. intros ->. congruence.
Qed.

Lemma for_each_remove_entry input_dict expected cm o fv :
  dict_get input_dict o = None →
  for_each (dict_remove cm o) (categorical_step input_dict expected) fv
  = for_each cm (categorical_step input_dict expected) fv.
Proof.
  intros Ho. unfold dict_remove. revert fv.
  induction cm as [|[o' p] cm IH]; intros fv; [done|].
  rewrite filter_cons. cbn [fst]. case_decide as Hne.
  - cbn [for_each].
    destruct (categorical_step input_dict expected (o', p) fv) as [out [fv'|e]];
      [|done].
    by rewrite !bind_ok, IH.
  - subst o'. cbn [for_each].
    by rewrite (categorical_step_absent _ _ _ _ _ Ho), bind_ret_l.
Qed.

(** X7. A mapping entry whose attribute the input record does not have has
    no effect at all: with the entries of that attribute taken out of the
    mapping, the builder prints the same lines and returns the same result. *)
Theorem absent_attribute_entry_no_effect input_dict expected cm o :
  o ∉ dict_keys input_dict →
  prepare_input_data input_dict expected (Some (dict_remove cm o))
  = prepare_input_data input_dict expected (Some cm).
Proof.
  intros Ho. destruct (decide (expected = [])) as [->|Hne]; [done|].
  assert (dict_get input_dict o = None) as Hget by (by apply dict_get_None).
  unfold prepare_input_data. rewrite !bool_decide_eq_false_2 by done.
  rewrite !build_feature_values_stage.
  rewrite numeric_values_remove_entry by done.
  unfold numerical_warnings.
  rewrite (filter_iff_on_elems (λ f, f ∉ dict_keys (dict_remove cm o))
             (λ f, f ∉ dict_keys cm) (dict_keys input_dict)).
  - rewrite !bind_ok. by rewrite for_each_remove_entry.
  - intros f Hf. rewrite dict_keys_remove. split; [|tauto].
    intros Hnot Hin. apply Hnot. split; [done|]. by intros ->.
Qed.

Lemma absent_attribute_entry_no_effect_witness :
  let input_dict := [("Hour", VInt 3); ("Location", VStr "Tokyo")] in
  let expected := ["Hour"; "Location_Tokyo"; "Device_Type_Mobile"] in
  ("Device_Type" ∉ dict_keys input_dict)
  ∧ prepare_input_data input_dict expected
      (Some (dict_remove CATEGORICAL_MAPPING "Device_Type"))
    = prepare_input_data input_dict expected (Some CATEGORICAL_MAPPING).
Proof.
  cbn zeta.
  assert ("Device_Type" ∉ dict_keys [("Hour", VInt 3); ("Location", VStr "Tokyo")])
    as H by (apply (bool_decide_unpack _); vm_compute; exact I).
  split; [assumption|].
  exact (absent_attribute_entry_no_effect _
           ["Hour"; "Location_Tokyo"; "Device_Type_Mobile"]
           CATEGORICAL_MAPPING "Device_Type" H).
Defined.

(** * Further properties of the predictor *)

(** X9. When both calls return, the predictor gives the first predicted
    label and the entry of the second column in the first row of the
    probabilities; further labels and rows are not looked at. *)
Theorem predict_fraud_first_row m df l0 ls a r0 rs :
  predict m df = Ok (l0 :: ls) →
  predict_proba m df = Ok a →
  1 < n_classes a →
  proba_rows a = r0 :: rs →
  predict_fraud (Estimator m) df = ([], Ok (l0, default NaN (r0 !! 1))).
Proof.
  intros Hp Hq Hn Hr. unfold predict_fraud. cbn [method_of].
  rewrite bind_lift_ok, Hp, !bind_lift_ok, Hq, bind_lift_ok.
  unfold column_1. rewrite decide_True by done. rewrite Hr.
  by rewrite bind_lift_ok.
Qed.

Lemma predict_fraud_first_row_witness :
  let m :=
    {| feature_names_in_ := None;
       is_Pipeline := false;
       predict := λ _, Ok [LInt 1; LInt 0];
       predict_proba := λ _,
         Ok {| n_classes := 2;
               proba_rows := [[Fin (1 # 4); Fin (3 # 4)]; [Fin (9 # 10); Fin (1 # 10)]] |}
    |} in
  predict_fraud (Estimator m) (built_table ["Hour"]) = ([], Ok (LInt 1, Fin (3 # 4))).
Proof.
  intros m.
  exact (predict_fraud_first_row m (built_table ["Hour"]) (LInt 1) [LInt 0]
           {| n_classes := 2;
              proba_rows := [[Fin (1 # 4); Fin (3 # 4)]; [Fin (9 # 10); Fin (1 # 10)]] |}
           [Fin (1 # 4); Fin (3 # 4)] [[Fin (9 # 10); Fin (1 # 10)]]
           eq_refl eq_refl ltac:(cbn; lia) eq_refl).
Defined.

(** X10. A model whose probabilities have fewer than two class columns
    makes the predictor fail, although [predict] returned: taking column 1
    is out of bounds, and the error is wrapped like any other. *)
Theorem predict_fraud_single_class m df l a :
  predict m df = Ok l →
  predict_proba m df = Ok a →
  (n_classes a ≤ 1)%nat →
  predict_fraud (Estimator m) df
  = ([], Raise (Exc ValueError
       ("Prediction error: index 1 is out of bounds for axis 1 with size "
        +:+ pretty (n_classes a)))).
Proof.
  intros Hp Hq Hn. unfold predict_fraud. cbn [method_of].
  rewrite bind_lift_ok, Hp, !bind_lift_ok, Hq, bind_lift_ok.
  unfold column_1. by rewrite decide_False by lia.
Qed.

Lemma predict_fraud_single_class_witness :
  let m :=
    {| feature_names_in_ := None;
       is_Pipeline := false;
       predict := λ _, Ok [LInt 0];
       predict_proba := λ _, Ok {| n_classes := 1; proba_rows := [[Fin 1]] |} |} in
  predict_fraud (Estimator m) (built_table ["Hour"])
  = ([], Raise (Exc ValueError
       "Prediction error: index 1 is out of bounds for axis 1 with size 1")).
Proof.
  intros m.
  exact (predict_fraud_single_class m (built_table ["Hour"]) [LInt 0]
           {| n_classes := 1; proba_rows := [[Fin 1]] |}
           eq_refl eq_refl ltac:(cbn; lia)).
Defined.

(** X11. Given an object without a [predict] method, a dict or any other
    object that is no estimator, the predictor raises its usual ValueError,
    the text naming the type of the object and the method. *)
Theorem predict_fraud_not_estimator df :
  (∀ model_slot fn cf tc,
     predict_fraud (Dict model_slot fn cf tc) df
     = ([], Raise (Exc ValueError
          "Prediction error: 'dict' object has no attribute 'predict'")))
  ∧ (∀ type_name,
       predict_fraud (Opaque type_name) df
       = ([], Raise (Exc ValueError
            ("Prediction error: '" +:+ type_name
             +:+ "' object has no attribute 'predict'")))).
Proof. split; reflexivity. Qed.

(** X12. The predictor prints nothing, and whatever goes wrong inside it,
    the exception that leaves it is a ValueError whose text starts with
    "Prediction error: " and goes on with the text of the cause; the class
    of the cause is not kept. *)
Theorem predict_fraud_only_value_errors model df out e :
  predict_fraud model df = (out, Raise e) →
  out = []
  ∧ exc_class_of e = ValueError
  ∧ ∃ cause, exc_str e = "Prediction error: " +:+ exc_str cause.
Proof.
  intros H. split.
  - by rewrite <-(predict_fraud_silent model df), H.
  - apply predict_fraud_error_shape in H as [cause ->]. split; [done|].
    by exists cause.
Qed.

Lemma predict_fraud_only_value_errors_witness :
  let e := Exc ValueError "Prediction error: 'int' object has no attribute 'predict'" in
  predict_fraud (Opaque "int") (built_table ["Hour"]) = ([], Raise e)
  ∧ exc_class_of e = ValueError
  ∧ ∃ cause, exc_str e = "Prediction error: " +:+ exc_str cause.
Proof.
  cbn zeta.
  assert (predict_fraud (Opaque "int") (built_table ["Hour"])
          = ([], Raise (Exc ValueError
               "Prediction error: 'int' object has no attribute 'predict'"))) as H
    by reflexivity.
  split; [assumption|].
  exact (proj2 (predict_fraud_only_value_errors _ _ _ _ H)).
Defined.

(** * Further properties of the orchestration *)

(** X13. When the loaded artifact is neither an estimator nor a dict with a
    model slot (a dict without the key 'model', even one that carries
    feature names, or some other object), [main] stops before building
    anything: it reports that the required features cannot be determined
    and exits with status 1. *)
Theorem main_without_model joblib_load v :
  joblib_load MODEL_PATH = Ok v →
  (∀ m, v ≠ Estimator m) →
  (∀ model fn cf tc, v ≠ Dict (Some model) fn cf tc) →
  main joblib_load
  = {| stdout := ["Model loaded successfully";
                  "Warning: No feature names found in model metadata"];
       stderr := ["Error: Could not determine required features for model"];
       ending := SysExit 1 |}.
Proof.
  intros Hv Hest Hdict.
  assert (load_model_with_metadata joblib_load MODEL_PATH = ([], Ok (v, [], [], [])))
    as Hload.
  { unfold load_model_with_metadata. rewrite Hv.
    destruct v as [m|[model|] fn cf tc|name]; try done.
    by destruct (Hdict model fn cf tc). }
  rewrite (main_loaded _ _ _ _ _ Hload).
  destruct v as [m| |]; [by destruct (Hest m) | done..].
Qed.

Lemma main_without_model_witness :
  let v := Dict None (Some reference_features) None None in
  (∀ m, v ≠ Estimator m)
  ∧ (∀ model fn cf tc, v ≠ Dict (Some model) fn cf tc)
  ∧ main (λ _, Ok v)
    = {| stdout := ["Model loaded successfully";
                    "Warning: No feature names found in model metadata"];
         stderr := ["Error: Could not determine required features for model"];
         ending := SysExit 1 |}.
Proof.
  cbn zeta.
  assert (∀ m, Dict None (Some reference_features) None None ≠ Estimator m) as H1
    by done.
  assert (∀ model fn cf tc,
            Dict None (Some reference_features) None None
            ≠ Dict (Some model) fn cf tc) as H2 by done.
  repeat (split; [assumption|]).
  exact (main_without_model (λ _, Ok (Dict None (Some reference_features) None None))
           _ eq_refl H1 H2).
Defined.

(** X14. The fallback to the model's own feature names does not get through
    for a model with two or more of them: with no feature names in the
    metadata and such an array on the model, the second test of
    [feature_names] raises on the array, and [main] reports that error and
    exits with status 1 before building a table. *)
Theorem main_fallback_ambiguous joblib_load m cf tc x y rest :
  load_model_with_metadata joblib_load MODEL_PATH = ([], Ok (Estimator m, [], cf, tc)) →
  feature_names_in_ m = Some (x :: y :: rest) →
  main joblib_load
  = {| stdout := ["Model loaded successfully";
                  "Warning: No feature names found in model metadata"];
       stderr := ["Error: The truth value of an array with more than one element is ambiguous. Use a.any() or a.all()"];
       ending := SysExit 1 |}.
Proof.
  intros Hload Hnames. rewrite (main_loaded _ _ _ _ _ Hload).
  unfold preamble, features_of, predict_and_report.
  rewrite bool_decide_eq_true_2 by done. rewrite Hnames.
  cbn [truth]. by rewrite bind_lift_raise.
Qed.

Lemma main_fallback_ambiguous_witness :
  let m :=
    {| feature_names_in_ := Some ["Hour"; "Risk_Score"];
       is_Pipeline := false;
       predict := λ _, Ok [LInt 0];
       predict_proba := λ _,
         Ok {| n_classes := 2; proba_rows := [[Fin (1 # 2); Fin (1 # 2)]] |} |} in
  let joblib_load := λ _ : string, Ok (Estimator m) in
  load_model_with_metadata joblib_load MODEL_PATH = ([], Ok (Estimator m, [], [], []))
  ∧ main joblib_load
    = {| stdout := ["Model loaded successfully";
                    "Warning: No feature names found in model metadata"];
         stderr := ["Error: The truth value of an array with more than one element is ambiguous. Use a.any() or a.all()"];
         ending := SysExit 1 |}.
Proof.
  intros m joblib_load.
  assert (load_model_with_metadata joblib_load MODEL_PATH
          = ([], Ok (Estimator m, [], [], []))) as H by reflexivity.
  split; [assumption|].
  exact (main_fallback_ambiguous joblib_load m [] [] "Hour" "Risk_Score" [] H eq_refl).
Defined.

Lemma predict_fraud_same_calls m1 m2 df :
  predict m1 df = predict m2 df →
  predict_proba m1 df = predict_proba m2 df →
  predict_fraud (Estimator m1) df = predict_fraud (Estimator m2) df.
Proof.
  intros Hp Hq. unfold predict_fraud. cbn [method_of].
  rewrite !bind_lift_ok, Hp. destruct (predict m2 df) as [l|e]; [|done].
  by rewrite !bind_lift_ok, Hq.
Qed.

(** X15. With feature names in the metadata, [main] uses nothing of the
    artifact but those names and what the model's [predict] and
    [predict_proba] answer on the built table: the lists of categorical
    features and training columns, and the model's own feature names, do
    not change what is printed or how the run ends. *)
Theorem main_uses_names_and_answers jl1 jl2 m1 m2 fn cf1 tc1 cf2 tc2 :
  load_model_with_metadata jl1 MODEL_PATH = ([], Ok (Estimator m1, fn, cf1, tc1)) →
  load_model_with_metadata jl2 MODEL_PATH = ([], Ok (Estimator m2, fn, cf2, tc2)) →
  fn ≠ [] →
  predict m1 (built_table fn) = predict m2 (built_table fn) →
  predict_proba m1 (built_table fn) = predict_proba m2 (built_table fn) →
  main jl1 = main jl2.
Proof.
  intros H1 H2 Hfn Hp Hq.
  rewrite (main_loaded _ _ _ _ _ H1), (main_loaded _ _ _ _ _ H2).
  unfold preamble, features_of. rewrite !bool_decide_eq_false_2 by done.
  assert (truth (FList fn) = Ok true) as Hfs
    by (cbn [truth]; by rewrite bool_decide_eq_false_2).
  rewrite !(predict_and_report_known _ _ Hfs). cbn [seq_items].
  by rewrite (predict_fraud_same_calls m1 m2 _ Hp Hq).
Qed.

Lemma main_uses_names_and_answers_witness :
  let m1 := constant_estimator (LInt 1) (Fin (9 # 10)) in
  let m2 :=
    {| feature_names_in_ := Some ["Hour"];
       is_Pipeline := true;
       predict := λ _, Ok [LInt 1];
       predict_proba := λ _,
         Ok {| n_classes := 2; proba_rows := [[Fin 0; Fin (9 # 10)]] |} |} in
  let jl1 := λ _ : string,
    Ok (Dict (Some (Estimator m1)) (Some reference_features) None None) in
  let jl2 := λ _ : string,
    Ok (Dict (Some (Estimator m2)) (Some reference_features)
          (Some ["Location"]) (Some ["Hour"; "Location"])) in
  reference_features ≠ [] ∧ main jl1 = main jl2.
Proof.
  intros m1 m2 jl1 jl2. split; [done|].
  exact (main_uses_names_and_answers jl1 jl2 m1 m2 reference_features
           [] [] ["Location"] ["Hour"; "Location"]
           eq_refl eq_refl ltac:(discriminate) eq_refl eq_refl).
Defined.

(** X16. The first line [main] prints is "Model loaded successfully"
    exactly when deserializing the artifact did not raise, whatever was
    loaded and however the run goes on; when it raised, nothing is printed
    to standard output. *)
Theorem loaded_line_iff joblib_load :
  (head (stdout (main joblib_load)) = Some "Model loaded successfully"
   ↔ ∃ v, joblib_load MODEL_PATH = Ok v)
  ∧ (stdout (main joblib_load) = [] ↔ ∃ e, joblib_load MODEL_PATH = Raise e).
Proof.
  destruct (load_model_with_metadata_result joblib_load MODEL_PATH)
    as [(model & fn & cf & tc & Hload)|(e & He & Hload)].
  - assert (∃ v, joblib_load MODEL_PATH = Ok v) as Hok.
    { unfold load_model_with_metadata in Hload.
      destruct (joblib_load MODEL_PATH) as [v|e]; [by exists v | done]. }
    assert (∃ rest, stdout (main joblib_load) = "Model loaded successfully" :: rest)
      as [rest Hout].
    { rewrite (main_loaded _ _ _ _ _ Hload). unfold preamble.
      destruct (predict_and_report model (features_of model fn)).2;
        cbn [stdout]; eauto. }
    rewrite Hout. split; [done|]. split; [done|].
    intros [e He]. destruct Hok as [v Hv]. congruence.
  - assert (stdout (main joblib_load) = []) as ->.
    { unfold main, main_try. by rewrite Hload. }
    split.
    + split; [done|]. intros [v Hv]. congruence.
    + split; [|done]. intros _. by exists e.
Qed.



Lemma loaded_line_iff_witness :
  let joblib_load :=
    λ _ : string, Ok (reference_artifact (constant_estimator (LInt 0) (Fin 0))) in
  head (stdout (main joblib_load)) = Some "Model loaded successfully".
Proof.
  intros joblib_load.
  exact (proj2 (proj1 (loaded_line_iff joblib_load))
           (ex_intro _ (reference_artifact (constant_estimator (LInt 0) (Fin 0)))
              eq_refl)).
Defined.
